(** * Courses report page: aggregation, filtering, summary and export

    A shallow embedding of [src/pages/admin/CoursesReportPage.tsx].

    The page joins three read-only collections (courses, enrolments,
    transactions) into per-course statistics, narrows them by a status and
    a provider selection, reduces them to summary counters and renders the
    visible rows as delimited text.

    Modelling conventions.
    - A JavaScript [number] that is only copied, counted or printed is an
      exact integer ([Z]); array lengths are [nat].  The page's sums of
      amounts are embedded twice: over [Z], for the properties that do not
      depend on how an addition rounds (which records are selected, bounds,
      the wiring of the page), and in [Module Double] over IEEE 754
      binary64 numbers, the arithmetic the page runs, for the properties
      that speak of the value of a sum.
    - A JavaScript string is a [string] of bytes; the default comparison of
      [Array.prototype.sort] is the lexicographic order on code units,
      [String.le].
    - An optional field ([courseId?], [startDate?]) is an [option]; [None]
      stands for [undefined]/[null].
    - Arrays are lists; [filter]/[map]/[reduce] are [List.filter], [map] and
      [fold_left] with the closure of the source as the function argument. *)

From Stdlib Require Import ZArith String Ascii List Lia Floats.
From stdpp Require Import list strings sorting pretty.

Local Open Scope string_scope.

(** ** Domain records *)

(** Modelled from the spec: the declarations of [Course], [Enrolment] and
    [Transaction] (module [@/lib/data]) are not part of the sources at hand;
    the fields are those of the data model, which are also exactly the ones
    the page reads. *)
Module Course.
Record t : Type := mk {
  id : string;
  code : string;
  name : string;
  provider : string;
  monthlyFee : Z;
  isActive : bool;
  startDate : option string;
  endDate : option string;
}.
End Course.

Module Enrolment.
Record t : Type := mk {
  id : string;
  courseId : string;
  isActive : bool;
}.
End Enrolment.

Module Transaction.
Record t : Type := mk {
  id : string;
  courseId : option string;
  type : string;
  status : string;
  amount : Z;
}.
End Transaction.

(** The object built by [{ ...course, totalEnrolments, activeEnrolments,
    totalRevenue }]: every own field of the course, then the three added
    ones. *)
Module CourseStats.
Record t : Type := mk {
  id : string;
  code : string;
  name : string;
  provider : string;
  monthlyFee : Z;
  isActive : bool;
  startDate : option string;
  endDate : option string;
  totalEnrolments : nat;
  activeEnrolments : nat;
  totalRevenue : Z;
}.

(** The course part of a statistics row. *)
Definition toCourse (cs : t) : Course.t :=
  Course.mk (id cs) (code cs) (name cs) (provider cs) (monthlyFee cs)
            (isActive cs) (startDate cs) (endDate cs).
End CourseStats.

Module OverallStats.
Record t : Type := mk {
  totalCourses : nat;
  activeCourses : nat;
  totalEnrolments : nat;
  activeEnrolments : nat;
  totalRevenue : Z;
}.
End OverallStats.

(** ** The JavaScript operations the page relies on *)

Module JS.
(** [a === b] for an optional string [a] and a string [b]. *)
Definition strict_eq (a : option string) (b : string) : bool :=
  match a with
  | Some s => String.eqb s b
  | None => false
  end.

(** Truthiness of an optional string: [undefined], [null] and the empty
    string are falsy. *)
Definition truthy (a : option string) : bool :=
  match a with
  | Some EmptyString => false
  | Some (String _ _) => true
  | None => false
  end.

(** [a || ''] *)
Definition or_empty (a : option string) : string :=
  match a with
  | Some (String c s) => String c s
  | _ => EmptyString
  end.

(** [new Set(xs)] keeps the first occurrence of every value, in insertion
    order; [set_add] is [Set.prototype.add]. *)
Definition set_add (seen : list string) (x : string) : list string :=
  if existsb (String.eqb x) seen then seen else seen ++ [x].

Definition new_Set (xs : list string) : list string :=
  fold_left set_add xs [].

(** [xs.sort()] with the default comparison. *)
Definition sort (xs : list string) : list string :=
  merge_sort String.le xs.

(** [xs.join(sep)] on an array of strings. *)
Fixpoint join (sep : string) (xs : list string) : string :=
  match xs with
  | [] => EmptyString
  | [x] => x
  | x :: rest => x +:+ sep +:+ join sep rest
  end.

(** A cell of an export row is a string or a number. *)
Inductive Cell : Type :=
| Str (s : string)
| Num (n : Z).

(** String conversion of a cell, as done by a template literal and by
    [join]. *)
Definition toString (c : Cell) : string :=
  match c with
  | Str s => s
  | Num n => pretty n
  end.
End JS.

Definition dquote : string := String "034"%char EmptyString.
Definition comma : string := ",".
Definition newline : string := String "010"%char EmptyString.
Definition tab : string := String "009"%char EmptyString.

(** ** The page *)

(** [providers]: the distinct providers, sorted. *)
Definition providers (courses : list Course.t) : list string :=
  let uniqueProviders := JS.new_Set (map (fun c => Course.provider c) courses) in
  JS.sort uniqueProviders.

(** The closure mapped over [courses] in [courseStats]. *)
Definition courseStat (enrolments : list Enrolment.t)
    (transactions : list Transaction.t) (course : Course.t) : CourseStats.t :=
  let courseEnrolments :=
    List.filter (fun e => String.eqb (Enrolment.courseId e) (Course.id course))
                enrolments in
  let activeEnrolments :=
    List.filter (fun e => Enrolment.isActive e) courseEnrolments in
  let courseTransactions :=
    List.filter (fun t => JS.strict_eq (Transaction.courseId t) (Course.id course))
                transactions in
  let totalRevenue :=
    fold_left (fun sum t => (sum + Z.abs (Transaction.amount t))%Z)
      (List.filter (fun t => String.eqb (Transaction.type t) "charge"
                             && String.eqb (Transaction.status t) "completed")
                   courseTransactions)
      0%Z in
  {| CourseStats.id := Course.id course;
     CourseStats.code := Course.code course;
     CourseStats.name := Course.name course;
     CourseStats.provider := Course.provider course;
     CourseStats.monthlyFee := Course.monthlyFee course;
     CourseStats.isActive := Course.isActive course;
     CourseStats.startDate := Course.startDate course;
     CourseStats.endDate := Course.endDate course;
     CourseStats.totalEnrolments := length courseEnrolments;
     CourseStats.activeEnrolments := length activeEnrolments;
     CourseStats.totalRevenue := totalRevenue |}.

Definition courseStats (courses : list Course.t) (enrolments : list Enrolment.t)
    (transactions : list Transaction.t) : list CourseStats.t :=
  map (courseStat enrolments transactions) courses.

Definition filteredCourses (courseStats : list CourseStats.t)
    (statusFilter providerFilter : string) : list CourseStats.t :=
  List.filter (fun course =>
    let matchesStatus :=
      String.eqb statusFilter "all"
      || (String.eqb statusFilter "active" && CourseStats.isActive course)
      || (String.eqb statusFilter "inactive" && negb (CourseStats.isActive course)) in
    let matchesProvider :=
      String.eqb providerFilter "all"
      || String.eqb (CourseStats.provider course) providerFilter in
    matchesStatus && matchesProvider) courseStats.

Definition overallStats (courses : list Course.t) (enrolments : list Enrolment.t)
    (transactions : list Transaction.t) : OverallStats.t :=
  let activeCourses := length (List.filter (fun c => Course.isActive c) courses) in
  let totalEnrolments := length enrolments in
  let activeEnrolments :=
    length (List.filter (fun e => Enrolment.isActive e) enrolments) in
  let totalRevenue :=
    fold_left (fun sum t => (sum + Z.abs (Transaction.amount t))%Z)
      (List.filter (fun t => String.eqb (Transaction.type t) "charge"
                             && String.eqb (Transaction.status t) "completed"
                             && JS.truthy (Transaction.courseId t))
                   transactions)
      0%Z in
  {| OverallStats.totalCourses := length courses;
     OverallStats.activeCourses := activeCourses;
     OverallStats.totalEnrolments := totalEnrolments;
     OverallStats.activeEnrolments := activeEnrolments;
     OverallStats.totalRevenue := totalRevenue |}.

(** The three numbers of the summary footer, before display formatting. *)
Module Summary.
Record t : Type := mk {
  rows : nat;
  activeEnrolments : nat;
  totalRevenue : Z;
}.
End Summary.

Definition summaryFooter (filteredCourses : list CourseStats.t) : Summary.t :=
  {| Summary.rows := length filteredCourses;
     Summary.activeEnrolments :=
       fold_left (fun sum c => sum + CourseStats.activeEnrolments c)
                 filteredCourses 0;
     Summary.totalRevenue :=
       fold_left (fun sum c => (sum + CourseStats.totalRevenue c)%Z)
                 filteredCourses 0%Z |}.

(** ** Export *)

Inductive Format : Type := csv | excel.

Definition headers : list string :=
  [ "Course Code"; "Course Name"; "Provider"; "Monthly Fee"; "Status";
    "Total Enrolments"; "Active Enrolments"; "Total Revenue";
    "Start Date"; "End Date" ].

Definition exportRow (course : CourseStats.t) : list JS.Cell :=
  [ JS.Str (CourseStats.code course);
    JS.Str (CourseStats.name course);
    JS.Str (CourseStats.provider course);
    JS.Num (CourseStats.monthlyFee course);
    JS.Str (if CourseStats.isActive course then "Active" else "Inactive");
    JS.Num (Z.of_nat (CourseStats.totalEnrolments course));
    JS.Num (Z.of_nat (CourseStats.activeEnrolments course));
    JS.Num (CourseStats.totalRevenue course);
    JS.Str (JS.or_empty (CourseStats.startDate course));
    JS.Str (JS.or_empty (CourseStats.endDate course)) ].

Definition csvContent (filteredCourses : list CourseStats.t) : string :=
  let rows := map exportRow filteredCourses in
  JS.join newline
    (JS.join comma headers
     :: map (fun row =>
               JS.join comma
                 (map (fun cell => dquote +:+ JS.toString cell +:+ dquote) row))
            rows).

Definition excelContent (filteredCourses : list CourseStats.t) : string :=
  let rows := map exportRow filteredCourses in
  JS.join newline
    (JS.join tab headers
     :: map (fun row => JS.join tab (map JS.toString row)) rows).

(** The text handed to the download, with its MIME label. *)
Definition handleExport (format : Format) (filteredCourses : list CourseStats.t)
    : string * string :=
  match format with
  | csv => (csvContent filteredCourses, "text/csv;charset=utf-8;")
  | excel => (excelContent filteredCourses,
              "application/vnd.ms-excel;charset=utf-8;")
  end.

(** ** One render of the page *)

Module View.
Record t : Type := mk {
  providers : list string;
  courseStats : list CourseStats.t;
  filteredCourses : list CourseStats.t;
  overallStats : OverallStats.t;
  summary : Summary.t;
}.
End View.

(** The values computed by one render, from the three collections of the
    store and the two pieces of filter state. *)
Definition CoursesReportPage (courses : list Course.t)
    (enrolments : list Enrolment.t) (transactions : list Transaction.t)
    (statusFilter providerFilter : string) : View.t :=
  let stats := courseStats courses enrolments transactions in
  let filtered := filteredCourses stats statusFilter providerFilter in
  {| View.providers := providers courses;
     View.courseStats := stats;
     View.filteredCourses := filtered;
     View.overallStats := overallStats courses enrolments transactions;
     View.summary := summaryFooter filtered |}.

(** ** Download name and table body *)

(** [s.split('T')[0]]: the text before the first [T], the whole text when
    there is none. *)
Fixpoint before_T (s : string) : string :=
  match s with
  | EmptyString => EmptyString
  | String c rest =>
      if Ascii.eqb c "T"%char then EmptyString else String c (before_T rest)
  end.

(** The [download] attribute set by [handleExport]; [isoNow] is the value of
    [new Date().toISOString()] at the moment of the export. *)
Definition downloadName (format : Format) (isoNow : string) : string :=
  match format with
  | csv => "courses_report_" +:+ before_T isoNow +:+ ".csv"
  | excel => "courses_report_" +:+ before_T isoNow +:+ ".xls"
  end.

(** A row of the table body: a course row with its React key and the text of
    its ten cells, or the single cell shown when nothing is listed. *)
Inductive TableRow : Type :=
| CourseRow (key : string) (cells : list string)
| EmptyRow (colSpan : nat) (text : string).

Section TableBody.
Variable formatCurrency : Z -> string.
Variable formatDate : string -> string.

(** [d ? formatDate(d) : '-'] *)
Definition dateCell (d : option string) : string :=
  match d with
  | Some (String c s) => formatDate (String c s)
  | _ => "-"
  end.

Definition courseRow (course : CourseStats.t) : TableRow :=
  CourseRow (CourseStats.id course)
    [ CourseStats.code course;
      CourseStats.name course;
      CourseStats.provider course;
      formatCurrency (CourseStats.monthlyFee course);
      (if CourseStats.isActive course then "Active" else "Inactive");
      pretty (CourseStats.totalEnrolments course);
      pretty (CourseStats.activeEnrolments course);
      formatCurrency (CourseStats.totalRevenue course);
      dateCell (CourseStats.startDate course);
      dateCell (CourseStats.endDate course) ].

Definition tableBody (filteredCourses : list CourseStats.t) : list TableRow :=
  map courseRow filteredCourses
  ++ (if Nat.eqb (length filteredCourses) 0
      then [EmptyRow 10 "No courses found matching the filters."]
      else []).
End TableBody.

(** The values of the items of the provider select: "all", then one per
    provider. *)
Definition providerOptions (courses : list Course.t) : list string :=
  "all" :: map (fun provider => provider) (providers courses).

(** The keys of the course rows of a table body. *)
Definition rowKeys (body : list TableRow) : list string :=
  flat_map (fun r => match r with
                     | CourseRow key _ => [key]
                     | EmptyRow _ _ => []
                     end) body.

(** ** Reference definitions

    The quantities of the report as its description words them: sums and
    counts over the records that satisfy a stated condition.  They are
    compared with the page's own computations below. *)

Module Spec.
Definition sumZ (xs : list Z) : Z := foldr Z.add 0%Z xs.

(** A transaction is recognised as revenue of [course]. *)
Definition qualifies (course : Course.t) (t : Transaction.t) : Prop :=
  Transaction.courseId t = Some (Course.id course)
  /\ Transaction.type t = "charge"
  /\ Transaction.status t = "completed".

#[global] Instance qualifies_dec course t : Decision (qualifies course t).
Proof. unfold qualifies. apply _. Defined.

(** Sum of the absolute amounts of the qualifying transactions. *)
Definition revenue (course : Course.t) (ts : list Transaction.t) : Z :=
  sumZ (map (fun t => Z.abs (Transaction.amount t))
            (filter (qualifies course) ts)).

(** *** Filter selection *)

(** The three status selections offered by the page, and the value each
    one stores in [statusFilter]. *)
Inductive StatusFilter : Type := All | Active | Inactive.

Definition value (s : StatusFilter) : string :=
  match s with
  | All => "all"
  | Active => "active"
  | Inactive => "inactive"
  end.

Definition status_passes (s : StatusFilter) (c : CourseStats.t) : Prop :=
  match s with
  | All => True
  | Active => CourseStats.isActive c = true
  | Inactive => CourseStats.isActive c = false
  end.

Definition provider_passes (providerFilter : string) (c : CourseStats.t)
    : Prop :=
  if decide (providerFilter = "all") then True
  else CourseStats.provider c = providerFilter.

#[global] Instance status_passes_dec s c : Decision (status_passes s c).
Proof. destruct s; cbn; apply _. Defined.

#[global] Instance provider_passes_dec p c : Decision (provider_passes p c).
Proof. unfold provider_passes. destruct (decide (p = "all")); apply _. Defined.

Definition passes (s : StatusFilter) (providerFilter : string)
    (c : CourseStats.t) : Prop :=
  status_passes s c /\ provider_passes providerFilter c.

(** *** Summaries *)

Definition completed_charge (t : Transaction.t) : Prop :=
  Transaction.type t = "charge" /\ Transaction.status t = "completed".

(** The transaction names a course: its [courseId] is present and is not
    the empty string. *)
Definition names_a_course (t : Transaction.t) : Prop :=
  match Transaction.courseId t with
  | Some s => s <> EmptyString
  | None => False
  end.

#[global] Instance names_a_course_dec t : Decision (names_a_course t).
Proof. unfold names_a_course. destruct (Transaction.courseId t); apply _. Defined.

Definition abs_amounts (ts : list Transaction.t) : Z :=
  sumZ (map (fun t => Z.abs (Transaction.amount t)) ts).


(** Overall statistics with revenue over the completed charges that name
    a course. *)
Definition overall (courses : list Course.t)
    (enrolments : list Enrolment.t) (transactions : list Transaction.t)
    : OverallStats.t :=
  {| OverallStats.totalCourses := length courses;
     OverallStats.activeCourses :=
       length (filter (fun c => Course.isActive c = true) courses);
     OverallStats.totalEnrolments := length enrolments;
     OverallStats.activeEnrolments :=
       length (filter (fun e => Enrolment.isActive e = true) enrolments);
     OverallStats.totalRevenue :=
       abs_amounts
         (filter (fun t => completed_charge t /\ names_a_course t)
                 transactions) |}.

(** Row count and the two sums over a list of statistics rows. *)
Definition summary (rows : list CourseStats.t) : Summary.t :=
  {| Summary.rows := length rows;
     Summary.activeEnrolments :=
       sum_list (map CourseStats.activeEnrolments rows);
     Summary.totalRevenue := sumZ (map CourseStats.totalRevenue rows) |}.

(** *** Rows against the overall statistics *)

(** Number of courses whose id is [k]. *)
Definition courses_with_id (k : string) (courses : list Course.t) : nat :=
  length (filter (fun c => Course.id c = k) courses).

(** Every enrolment belongs to a course of the collection. *)
Definition enrolments_covered (courses : list Course.t)
    (enrolments : list Enrolment.t) : Prop :=
  Forall (fun e => In (Enrolment.courseId e) (map Course.id courses))
         enrolments.

(** *** Provider list *)

Definition strictly_before (a b : string) : Prop :=
  String.le a b /\ a <> b.

(** *** Comma-separated text *)

Definition quoted (s : string) : string := dquote +:+ s +:+ dquote.

(** The text in which every cell, those of the header row included, is
    quoted. *)
Definition csv_all_quoted (rows : list CourseStats.t) : string :=
  JS.join newline
    (map (fun cells => JS.join comma (map quoted cells))
         (headers :: map (fun c => map JS.toString (exportRow c)) rows)).

Definition header_line : string :=
  "Course Code,Course Name,Provider,Monthly Fee,Status,Total Enrolments,Active Enrolments,Total Revenue,Start Date,End Date".

Definition date_text (d : option string) : string :=
  match d with
  | Some s => s
  | None => EmptyString
  end.

(** One data line: the ten cells of a row, each between double quotes
    with its text copied as it is, separated by commas. *)
Definition data_line (c : CourseStats.t) : string :=
  quoted (CourseStats.code c) +:+ ","
  +:+ quoted (CourseStats.name c) +:+ ","
  +:+ quoted (CourseStats.provider c) +:+ ","
  +:+ quoted (pretty (CourseStats.monthlyFee c)) +:+ ","
  +:+ quoted (if CourseStats.isActive c then "Active" else "Inactive") +:+ ","
  +:+ quoted (pretty (CourseStats.totalEnrolments c)) +:+ ","
  +:+ quoted (pretty (CourseStats.activeEnrolments c)) +:+ ","
  +:+ quoted (pretty (CourseStats.totalRevenue c)) +:+ ","
  +:+ quoted (date_text (CourseStats.startDate c)) +:+ ","
  +:+ quoted (date_text (CourseStats.endDate c)).

(** Appends a newline and the line of [x] to a text. *)
Definition add_line {A : Type} (line : A -> string) (text : string) (x : A)
    : string :=
  text +:+ newline +:+ line x.

(** The unquoted header line, then one data line per row, each on a new
    line. *)
Definition csv_text (rows : list CourseStats.t) : string :=
  fold_left (add_line data_line) rows header_line.

(** *** Tab-separated text *)

Definition excel_header_line : string :=
  "Course Code" +:+ tab +:+ "Course Name" +:+ tab +:+ "Provider" +:+ tab
  +:+ "Monthly Fee" +:+ tab +:+ "Status" +:+ tab +:+ "Total Enrolments" +:+ tab
  +:+ "Active Enrolments" +:+ tab +:+ "Total Revenue" +:+ tab
  +:+ "Start Date" +:+ tab +:+ "End Date".

(** One data line of the tab-separated text: the ten cells as they are,
    separated by tabs. *)
Definition excel_line (c : CourseStats.t) : string :=
  CourseStats.code c +:+ tab
  +:+ CourseStats.name c +:+ tab
  +:+ CourseStats.provider c +:+ tab
  +:+ pretty (CourseStats.monthlyFee c) +:+ tab
  +:+ (if CourseStats.isActive c then "Active" else "Inactive") +:+ tab
  +:+ pretty (CourseStats.totalEnrolments c) +:+ tab
  +:+ pretty (CourseStats.activeEnrolments c) +:+ tab
  +:+ pretty (CourseStats.totalRevenue c) +:+ tab
  +:+ date_text (CourseStats.startDate c) +:+ tab
  +:+ date_text (CourseStats.endDate c).

(** *** Status values *)

Definition known_status (statusFilter : string) : Prop :=
  statusFilter = "all" \/ statusFilter = "active" \/ statusFilter = "inactive".

(** The row [r] with another code and name. *)
Definition with_code_name (code name : string) (r : CourseStats.t)
    : CourseStats.t :=
  CourseStats.mk (CourseStats.id r) code name (CourseStats.provider r)
    (CourseStats.monthlyFee r) (CourseStats.isActive r)
    (CourseStats.startDate r) (CourseStats.endDate r)
    (CourseStats.totalEnrolments r) (CourseStats.activeEnrolments r)
    (CourseStats.totalRevenue r).

(** What stands between two cells of a data line of the comma-separated
    text: a closing quote, a comma, an opening quote. *)
Definition cell_boundary : string := dquote +:+ "," +:+ dquote.

(** The file extension of a format. *)
Definition extension (format : Format) : string :=
  match format with
  | csv => ".csv"
  | excel => ".xls"
  end.

(** The header line and the data line of a format. *)
Definition header_of (format : Format) : string :=
  match format with
  | csv => header_line
  | excel => excel_header_line
  end.

Definition line_of (format : Format) (c : CourseStats.t) : string :=
  match format with
  | csv => data_line c
  | excel => excel_line c
  end.

(** The character does not occur in the text. *)
Definition free_of (c : ascii) (s : string) : Prop :=
  ~ In c (list_ascii_of_string s).

(** Writes a text with apostrophes standing for double quotes. *)
Fixpoint with_dquotes (s : string) : string :=
  match s with
  | EmptyString => EmptyString
  | String c rest =>
      String (if Ascii.eqb c "'"%char then "034"%char else c)
             (with_dquotes rest)
  end.
End Spec.

(** ** Revenue in double precision

    The statistics of the page with amounts as binary64 numbers: [reduce]
    adds from left to right, starting from 0, and every addition rounds. *)

Module Double.

Module Transaction.
Record t : Type := mk {
  id : string;
  courseId : option string;
  type : string;
  status : string;
  amount : float;
}.
End Transaction.

(** A statistics row: the fields copied from the course by the spread, then
    the three added ones. *)
Module CourseStats.
Record t : Type := mk {
  course : Course.t;
  totalEnrolments : nat;
  activeEnrolments : nat;
  totalRevenue : float;
}.
End CourseStats.

Module OverallStats.
Record t : Type := mk {
  totalCourses : nat;
  activeCourses : nat;
  totalEnrolments : nat;
  activeEnrolments : nat;
  totalRevenue : float;
}.
End OverallStats.

(** The array a course's revenue is reduced from: [courseTransactions]
    filtered to the completed charges. *)
Definition rowCharges (transactions : list Transaction.t) (course : Course.t)
    : list Transaction.t :=
  let courseTransactions :=
    List.filter (fun t => JS.strict_eq (Transaction.courseId t) (Course.id course))
                transactions in
  List.filter (fun t => String.eqb (Transaction.type t) "charge"
                        && String.eqb (Transaction.status t) "completed")
              courseTransactions.

(** [xs.reduce((sum, t) => sum + Math.abs(t.amount), 0)] *)
Definition sumAbs (xs : list Transaction.t) : float :=
  fold_left (fun sum t => (sum + abs (Transaction.amount t))%float) xs 0%float.

(** The closure mapped over [courses] in [courseStats]. *)
Definition courseStat (enrolments : list Enrolment.t)
    (transactions : list Transaction.t) (course : Course.t) : CourseStats.t :=
  let courseEnrolments :=
    List.filter (fun e => String.eqb (Enrolment.courseId e) (Course.id course))
                enrolments in
  let activeEnrolments :=
    List.filter (fun e => Enrolment.isActive e) courseEnrolments in
  let totalRevenue := sumAbs (rowCharges transactions course) in
  {| CourseStats.course := course;
     CourseStats.totalEnrolments := length courseEnrolments;
     CourseStats.activeEnrolments := length activeEnrolments;
     CourseStats.totalRevenue := totalRevenue |}.

Definition courseStats (courses : list Course.t) (enrolments : list Enrolment.t)
    (transactions : list Transaction.t) : list CourseStats.t :=
  map (courseStat enrolments transactions) courses.

(** The array the overall revenue is reduced from. *)
Definition overallCharges (transactions : list Transaction.t)
    : list Transaction.t :=
  List.filter (fun t => String.eqb (Transaction.type t) "charge"
                        && String.eqb (Transaction.status t) "completed"
                        && JS.truthy (Transaction.courseId t))
              transactions.

Definition overallStats (courses : list Course.t) (enrolments : list Enrolment.t)
    (transactions : list Transaction.t) : OverallStats.t :=
  let activeCourses := length (List.filter (fun c => Course.isActive c) courses) in
  let totalEnrolments := length enrolments in
  let activeEnrolments :=
    length (List.filter (fun e => Enrolment.isActive e) enrolments) in
  let totalRevenue := sumAbs (overallCharges transactions) in
  {| OverallStats.totalCourses := length courses;
     OverallStats.activeCourses := activeCourses;
     OverallStats.totalEnrolments := totalEnrolments;
     OverallStats.activeEnrolments := activeEnrolments;
     OverallStats.totalRevenue := totalRevenue |}.

(** [rows.reduce((sum, c) => sum + c.totalRevenue, 0)], the revenue of the
    summary footer. *)
Definition footerRevenue (rows : list CourseStats.t) : float :=
  fold_left (fun sum c => (sum + CourseStats.totalRevenue c)%float) rows 0%float.

(** *** Reference definitions *)

(** The sum of a list of numbers, taken in order from 0. *)
Definition sum (xs : list float) : float :=
  fold_left (fun acc x => (acc + x)%float) xs 0%float.

(** A transaction is recognised as revenue of [course]. *)
Definition qualifies (course : Course.t) (t : Transaction.t) : Prop :=
  Transaction.courseId t = Some (Course.id course)
  /\ Transaction.type t = "charge"
  /\ Transaction.status t = "completed".

#[global] Instance double_qualifies_dec course t : Decision (qualifies course t).
Proof. unfold qualifies. apply _. Defined.

(** Sum, in the order of the collection, of the absolute amounts of the
    qualifying transactions. *)
Definition revenue (course : Course.t) (ts : list Transaction.t) : float :=
  sum (map (fun t => abs (Transaction.amount t)) (filter (qualifies course) ts)).

(** A transaction counts towards the overall revenue: a completed charge
    whose [courseId] is present and is not the empty string. *)
Definition counts_overall (t : Transaction.t) : Prop :=
  Transaction.type t = "charge"
  /\ Transaction.status t = "completed"
  /\ match Transaction.courseId t with
     | Some s => s <> EmptyString
     | None => False
     end.

#[global] Instance counts_overall_dec t : Decision (counts_overall t).
Proof.
  unfold counts_overall. destruct (Transaction.courseId t); apply _.
Defined.

(** The charges summed by the rows, row after row. *)
Definition allRowCharges (courses : list Course.t)
    (transactions : list Transaction.t) : list Transaction.t :=
  flat_map (rowCharges transactions) courses.

End Double.

(** ** Sample data *)

Module Sample.
(** The course of the export scenario: no dates, no enrolments, no
    transactions. *)
Definition intro : Course.t :=
  Course.mk "c1" "C1" "Intro" "Acme" 100 true None None.

(** A course whose name holds a double quote and a comma. *)
Definition quirky : Course.t :=
  Course.mk "c2" "C2" (Spec.with_dquotes "Say 'hi', now") "Acme" 100 false
            (Some "2024-01-01") None.

(** The summary scenario: an active course with two active enrolments and
    one completed charge of 50, and an inactive course without
    enrolments. *)
Definition algebra : Course.t :=
  Course.mk "a" "A1" "Algebra" "Acme" 100 true None None.
Definition biology : Course.t :=
  Course.mk "b" "B1" "Biology" "Bolt" 80 false None None.
Definition two_courses : list Course.t := [algebra; biology].
Definition two_enrolments : list Enrolment.t :=
  [Enrolment.mk "e1" "a" true; Enrolment.mk "e2" "a" true].
Definition one_charge : list Transaction.t :=
  [Transaction.mk "t1" (Some "a") "charge" "completed" 50].

Definition blank_course : Course.t :=
  Course.mk EmptyString "X0" "Unnamed" "Acme" 10 true None None.

(** The same charges with binary64 amounts. *)
Definition one_charge_double : list Double.Transaction.t :=
  [Double.Transaction.mk "t1" (Some "a") "charge" "completed" 50].
Definition blank_charge_double : Double.Transaction.t :=
  Double.Transaction.mk "t0" (Some EmptyString) "charge" "completed" 50.

(** A completed charge of 2^53 on course "b" followed by two of 1 on course
    "a", and the same three charges with the large one last. *)
Definition large_then_small : list Double.Transaction.t :=
  [Double.Transaction.mk "t1" (Some "b") "charge" "completed" 9007199254740992;
   Double.Transaction.mk "t2" (Some "a") "charge" "completed" 1;
   Double.Transaction.mk "t3" (Some "a") "charge" "completed" 1].
Definition small_then_large : list Double.Transaction.t :=
  [Double.Transaction.mk "t2" (Some "a") "charge" "completed" 1;
   Double.Transaction.mk "t3" (Some "a") "charge" "completed" 1;
   Double.Transaction.mk "t1" (Some "b") "charge" "completed" 9007199254740992].

(** A refund on course "a". *)
Definition refund_double : Double.Transaction.t :=
  Double.Transaction.mk "t9" (Some "a") "refund" "completed" 20.
End Sample.

(** ** Auxiliary facts about the array operations *)

Section ArrayFacts.
Context {A : Type}.

(** A boolean closure and a decidable property that agree select the same
    elements. *)
Lemma filter_bool_prop (f : A -> bool) (P : A -> Prop)
    `{forall x, Decision (P x)} (l : list A) :
  (forall x, f x = true <-> P x) ->
  List.filter f l = filter P l.
Proof.
  intros Hfp. induction l as [|x l IH]; [reflexivity|].
  cbn [List.filter]. rewrite filter_cons, IH.
  destruct (f x) eqn:Hfx.
  - rewrite decide_True; [reflexivity | by apply Hfp].
  - rewrite decide_False; [reflexivity|].
    intros HP. apply Hfp in HP. congruence.
Qed.

Lemma filter_bool_and (f g : A -> bool) (l : list A) :
  List.filter f (List.filter g l) = List.filter (fun x => g x && f x) l.
Proof.
  induction l as [|x l IH]; [reflexivity|].
  cbn [List.filter]. destruct (g x); cbn [List.filter andb]; rewrite IH;
    reflexivity.
Qed.

(** [reduce] with an additive step is the initial value plus the sum. *)
Lemma reduce_add_Z (f : A -> Z) (l : list A) (a : Z) :
  fold_left (fun sum x => (sum + f x)%Z) l a = (a + Spec.sumZ (map f l))%Z.
Proof.
  revert a. induction l as [|x l IH]; intros a; cbn.
  - lia.
  - rewrite IH. unfold Spec.sumZ. lia.
Qed.

Lemma reduce_add_nat (f : A -> nat) (l : list A) (a : nat) :
  fold_left (fun sum x => sum + f x) l a = a + sum_list (map f l).
Proof.
  revert a. induction l as [|x l IH]; intros a; cbn.
  - lia.
  - rewrite IH. lia.
Qed.

Lemma sumZ_abs_nonneg (f : A -> Z) (l : list A) :
  (0 <= Spec.sumZ (map (fun x => Z.abs (f x)) l))%Z.
Proof.
  induction l as [|x l IH]; cbn; [lia|].
  unfold Spec.sumZ in IH. lia.
Qed.
End ArrayFacts.

Lemma strict_eq_true (a : option string) (b : string) :
  JS.strict_eq a b = true <-> a = Some b.
Proof.
  destruct a as [s|]; cbn.
  - rewrite String.eqb_eq. split; congruence.
  - split; discriminate.
Qed.

(** The revenue computed for a course, in terms of the reference sum. *)
Lemma courseStat_totalRevenue course enrolments transactions :
  CourseStats.totalRevenue (courseStat enrolments transactions course)
  = Spec.revenue course transactions.
Proof.
  unfold courseStat, Spec.revenue; cbn [CourseStats.totalRevenue].
  rewrite reduce_add_Z, filter_bool_and, Z.add_0_l.
  f_equal. f_equal. apply filter_bool_prop.
  intros t. unfold Spec.qualifies.
  rewrite !andb_true_iff, !String.eqb_eq, strict_eq_true. tauto.
Qed.

(** ** Per-course revenue *)

Lemma double_sumAbs_sum (xs : list Double.Transaction.t) :
  Double.sumAbs xs
  = Double.sum (map (fun t => abs (Double.Transaction.amount t)) xs).
Proof.
  unfold Double.sumAbs, Double.sum. generalize 0%float.
  induction xs as [|t xs IH]; intros acc; [reflexivity|].
  cbn [fold_left map]. apply IH.
Qed.

Lemma double_rowCharges_qualifies transactions course :
  Double.rowCharges transactions course
  = filter (Double.qualifies course) transactions.
Proof.
  unfold Double.rowCharges. rewrite filter_bool_and.
  apply filter_bool_prop. intros t. unfold Double.qualifies.
  rewrite !andb_true_iff, !String.eqb_eq, strict_eq_true. tauto.
Qed.

Lemma double_courseStat_totalRevenue course enrolments transactions :
  Double.CourseStats.totalRevenue
    (Double.courseStat enrolments transactions course)
  = Double.revenue course transactions.
Proof.
  unfold Double.courseStat, Double.revenue;
    cbn [Double.CourseStats.totalRevenue].
  by rewrite double_sumAbs_sum, double_rowCharges_qualifies.
Qed.

(** C1. The [totalRevenue] of every row of the statistics table is the sum,
    taken from 0 in the order of the collection with the additions of the
    page's double-precision numbers, of the absolute amounts of the
    transactions whose [courseId] is the course's id and which are completed
    charges.  A transaction that fails one of these conditions contributes
    nothing: wherever it stands in the collection, the revenue is the one
    computed without it.  A completed charge of -75 on the course
    contributes +75. *)
Theorem C1_totalRevenue_sum_of_abs_completed_charges :
  (forall courses enrolments transactions,
      map Double.CourseStats.totalRevenue
          (Double.courseStats courses enrolments transactions)
      = map (fun course => Double.revenue course transactions) courses)
  /\ (forall course enrolments ts1 t ts2,
        ~ (Double.Transaction.courseId t = Some (Course.id course)
           /\ Double.Transaction.type t = "charge"
           /\ Double.Transaction.status t = "completed") ->
        Double.CourseStats.totalRevenue
          (Double.courseStat enrolments (ts1 ++ t :: ts2) course)
        = Double.CourseStats.totalRevenue
            (Double.courseStat enrolments (ts1 ++ ts2) course))
  /\ (forall course enrolments tid,
        Double.CourseStats.totalRevenue
          (Double.courseStat enrolments
             [Double.Transaction.mk tid (Some (Course.id course))
                                    "charge" "completed" (-75)]
             course)
        = 75%float).
Proof.
  split; [|split].
  - intros courses enrolments transactions. unfold Double.courseStats.
    rewrite map_map. apply map_ext. intros course.
    apply double_courseStat_totalRevenue.
  - intros course enrolments ts1 t ts2 Ht.
    rewrite !double_courseStat_totalRevenue. unfold Double.revenue.
    by rewrite !filter_app, filter_cons_False.
  - intros course enrolments tid.
    rewrite double_courseStat_totalRevenue. unfold Double.revenue.
    rewrite filter_cons, decide_True; [reflexivity|].
    unfold Double.qualifies; cbn. tauto.
Qed.

(** A refund on course "a" placed between two charges changes nothing of
    the revenue of that course. *)
Lemma C1_totalRevenue_witness :
  Double.CourseStats.totalRevenue
    (Double.courseStat Sample.two_enrolments
       (Sample.one_charge_double ++ Sample.refund_double
                                 :: Sample.one_charge_double)
       Sample.algebra)
  = Double.CourseStats.totalRevenue
      (Double.courseStat Sample.two_enrolments
         (Sample.one_charge_double ++ Sample.one_charge_double)
         Sample.algebra).
Proof.
  apply (proj1 (proj2 C1_totalRevenue_sum_of_abs_completed_charges)).
  cbn. intros (_ & Htype & _). discriminate Htype.
Defined.

(** ** Comma-separated export *)

Lemma append_assoc (a b c : string) : (a +:+ b) +:+ c = a +:+ b +:+ c.
Proof.
  induction a as [|x a IH]; [reflexivity|].
  change (String x ((a +:+ b) +:+ c) = String x (a +:+ b +:+ c)).
  by rewrite IH.
Qed.

Lemma pretty_Z_of_nat (n : nat) : pretty (Z.of_nat n) = pretty n.
Proof. destruct n; reflexivity. Qed.

Lemma or_empty_date_text (d : option string) : JS.or_empty d = Spec.date_text d.
Proof. destruct d as [[|c s]|]; reflexivity. Qed.

Section JoinLines.
Context {A : Type} (line : A -> string).

Lemma fold_lines_prefix (xs : list A) (a b : string) :
  fold_left (Spec.add_line line) xs (a +:+ b)
  = a +:+ fold_left (Spec.add_line line) xs b.
Proof.
  revert b. induction xs as [|x xs IH]; intros b; cbn [fold_left];
    [reflexivity|].
  rewrite <- IH. f_equal. unfold Spec.add_line. apply append_assoc.
Qed.

(** Joining a first line and the lines of [xs] with newlines appends, for
    each element in turn, a newline and its line. *)
Lemma join_lines (xs : list A) (first : string) :
  JS.join newline (first :: map line xs)
  = fold_left (Spec.add_line line) xs first.
Proof.
  revert first. induction xs as [|x xs IH]; intros first; [reflexivity|].
  change (JS.join newline (first :: map line (x :: xs)))
    with (first +:+ newline +:+ JS.join newline (line x :: map line xs)).
  rewrite IH. cbn [fold_left].
  by rewrite <- !fold_lines_prefix.
Qed.
End JoinLines.

Lemma csv_data_line (c : CourseStats.t) :
  JS.join comma
    (map (fun cell => dquote +:+ JS.toString cell +:+ dquote) (exportRow c))
  = Spec.data_line c.
Proof.
  unfold exportRow, Spec.data_line, Spec.quoted, comma.
  cbn [map JS.join JS.toString].
  by rewrite !pretty_Z_of_nat, !or_empty_date_text.
Qed.

Lemma csvContent_csv_text (rows : list CourseStats.t) :
  csvContent rows = Spec.csv_text rows.
Proof.
  unfold csvContent, Spec.csv_text. rewrite map_map.
  rewrite (join_lines (fun c => JS.join comma
             (map (fun cell => dquote +:+ JS.toString cell +:+ dquote)
                  (exportRow c)))).
  change (JS.join comma headers) with Spec.header_line.
  generalize Spec.header_line. induction rows as [|c rows IH]; intros h;
    [reflexivity|].
  cbn [fold_left]. rewrite IH. unfold Spec.add_line.
  by rewrite csv_data_line.
Qed.

(** C2, as worded, fails: with no rows at all the comma-separated text is
    the bare header line, whose cells are not wrapped in double quotes. *)
Lemma C2_header_cells_are_not_quoted :
  csvContent [] = Spec.header_line
  /\ csvContent [] <> Spec.csv_all_quoted [].
Proof. split; [reflexivity | discriminate]. Qed.

(** C2, amended.  The comma-separated export is the header line, its ten
    titles joined by commas and not quoted, followed on a new line each by
    one data line per row; in a data line every cell, numeric ones
    included, stands between double quotes, the cells are joined by commas,
    and the text of a cell is copied without escaping: a double quote or a
    comma inside a value appears in the line as it is. *)
Theorem C2_csv_rows_quoted_header_plain :
  (forall rows, fst (handleExport csv rows) = Spec.csv_text rows)
  /\ csvContent [courseStat [] [] Sample.intro]
     = Spec.header_line +:+ newline
       +:+ Spec.with_dquotes "'C1','Intro','Acme','100','Active','0','0','0','',''"
  /\ csvContent [courseStat [] [] Sample.quirky]
     = Spec.header_line +:+ newline
       +:+ Spec.with_dquotes
             "'C2','Say 'hi', now','Acme','100','Inactive','0','0','0','2024-01-01',''".
Proof.
  split; [|split].
  - intros rows. apply csvContent_csv_text.
  - reflexivity.
  - reflexivity.
Qed.

(** ** Overall statistics *)

Lemma length_filter_bool_prop {A : Type} (f : A -> bool) (l : list A) :
  length (List.filter f l) = length (filter (fun x => f x = true) l).
Proof. f_equal. by apply filter_bool_prop. Qed.

Lemma overallStats_overall courses enrolments transactions :
  overallStats courses enrolments transactions
  = Spec.overall courses enrolments transactions.
Proof.
  unfold overallStats, Spec.overall, Spec.abs_amounts.
  rewrite !length_filter_bool_prop, reduce_add_Z, Z.add_0_l.
  f_equal. f_equal. f_equal. apply filter_bool_prop.
  intros t. unfold Spec.completed_charge, Spec.names_a_course.
  rewrite !andb_true_iff, !String.eqb_eq.
  destruct (Transaction.courseId t) as [[|c s]|]; cbn; intuition congruence.
Qed.



(** ** Filtering *)

Lemma matches_passes (s : Spec.StatusFilter) (providerFilter : string)
    (course : CourseStats.t) :
  (String.eqb (Spec.value s) "all"
   || (String.eqb (Spec.value s) "active" && CourseStats.isActive course)
   || (String.eqb (Spec.value s) "inactive"
       && negb (CourseStats.isActive course)))
  && (String.eqb providerFilter "all"
      || String.eqb (CourseStats.provider course) providerFilter) = true
  <-> Spec.passes s providerFilter course.
Proof.
  unfold Spec.passes, Spec.provider_passes.
  rewrite andb_true_iff, (orb_true_iff (String.eqb providerFilter _)),
    !String.eqb_eq.
  assert (Hstatus :
    String.eqb (Spec.value s) "all"
    || (String.eqb (Spec.value s) "active" && CourseStats.isActive course)
    || (String.eqb (Spec.value s) "inactive"
        && negb (CourseStats.isActive course)) = true
    <-> Spec.status_passes s course).
  { destruct s, (CourseStats.isActive course) eqn:Hactive; cbn;
      rewrite ?Hactive; intuition congruence. }
  rewrite Hstatus. case_decide; tauto.
Qed.

Lemma filteredCourses_passes stats s providerFilter :
  filteredCourses stats (Spec.value s) providerFilter
  = filter (Spec.passes s providerFilter) stats.
Proof.
  unfold filteredCourses. apply filter_bool_prop.
  intros c. apply matches_passes.
Qed.

(** C4. For each of the three status selections and every provider
    selection, the filter returns the rows that pass both tests, in their
    original order: "all" lets every status pass, "active" asks for
    [isActive = true], "inactive" for [isActive = false]; the provider
    selection "all" lets every row pass, any other asks for a provider equal
    to it. *)
Theorem C4_filter_is_conjunction_in_order :
  forall (stats : list CourseStats.t) (s : Spec.StatusFilter)
         (providerFilter : string),
    filteredCourses stats (Spec.value s) providerFilter
    = filter (fun c => Spec.status_passes s c
                       /\ Spec.provider_passes providerFilter c) stats
    /\ filteredCourses stats (Spec.value s) providerFilter `sublist_of` stats.
Proof.
  intros stats s providerFilter.
  rewrite filteredCourses_passes. split; [reflexivity|].
  apply sublist_filter.
Qed.

(** C7. Filtering by "active" and a provider at once is filtering by
    "active" first and by the provider afterwards. *)
Theorem C7_filter_and_is_composition :
  forall (stats : list CourseStats.t) (X : string),
    filteredCourses stats "active" X
    = filteredCourses (filteredCourses stats "active" "all") "all" X.
Proof.
  intros stats X. unfold filteredCourses.
  rewrite filter_bool_and. apply List.filter_ext.
  intros c. cbn. destruct (CourseStats.isActive c); cbn; [|reflexivity].
  by destruct (String.eqb X "all" || String.eqb (CourseStats.provider c) X).
Qed.

(** ** Summary of the visible rows *)

Lemma summaryFooter_summary rows : summaryFooter rows = Spec.summary rows.
Proof.
  unfold summaryFooter, Spec.summary.
  by rewrite reduce_add_nat, reduce_add_Z, Z.add_0_l.
Qed.



(** ** Shape of the statistics table *)

(** C6. Every row of the statistics table has
    [totalEnrolments >= activeEnrolments >= 0] and [totalRevenue >= 0]. *)
Theorem C6_courseStats_bounds :
  forall courses enrolments transactions,
    Forall (fun cs =>
              0 <= CourseStats.activeEnrolments cs
              /\ CourseStats.activeEnrolments cs <= CourseStats.totalEnrolments cs
              /\ (0 <= CourseStats.totalRevenue cs)%Z)
           (courseStats courses enrolments transactions).
Proof.
  intros courses enrolments transactions.
  unfold courseStats. apply Forall_map, Forall_forall. intros course _.
  split; [lia|]. split.
  - apply List.filter_length_le.
  - rewrite courseStat_totalRevenue. apply sumZ_abs_nonneg.
Qed.

(** C9. The statistics table has one row per course, in the order of the
    course collection; the row at index [i] is computed from the course at
    index [i] and carries each of its fields unchanged. *)
Theorem C9_one_row_per_course_in_order :
  forall courses enrolments transactions,
    length (courseStats courses enrolments transactions) = length courses
    /\ map CourseStats.toCourse (courseStats courses enrolments transactions)
       = courses
    /\ (forall i,
          courseStats courses enrolments transactions !! i
          = courseStat enrolments transactions <$> courses !! i)
    /\ (forall i,
          CourseStats.toCourse
            <$> courseStats courses enrolments transactions !! i
          = courses !! i).
Proof.
  intros courses enrolments transactions. unfold courseStats.
  assert (Hcourse : forall c,
             CourseStats.toCourse (courseStat enrolments transactions c) = c)
    by (by intros []).
  repeat split.
  - apply length_map.
  - rewrite map_map. erewrite map_ext; [apply map_id | exact Hcourse].
  - intros i. apply list_lookup_fmap.
  - intros i. change (map ?f ?l) with (f <$> l).
    rewrite list_lookup_fmap. destruct (courses !! i) as [c|]; cbn; [|done].
    by rewrite Hcourse.
Qed.

(** ** Provider list *)

Lemma set_add_In (seen : list string) (x y : string) :
  In y (JS.set_add seen x) <-> In y seen \/ y = x.
Proof.
  unfold JS.set_add. destruct (existsb (String.eqb x) seen) eqn:Hseen.
  - apply existsb_exists in Hseen as (z & Hz & Hxz).
    apply String.eqb_eq in Hxz as <-. intuition congruence.
  - rewrite in_app_iff. cbn. intuition congruence.
Qed.

Lemma set_add_NoDup (seen : list string) (x : string) :
  NoDup seen -> NoDup (JS.set_add seen x).
Proof.
  intros Hseen. unfold JS.set_add.
  destruct (existsb (String.eqb x) seen) eqn:Hx; [assumption|].
  apply NoDup_app. split; [assumption|]. split; [|apply NoDup_singleton].
  intros y Hy ->%list_elem_of_singleton.
  assert (existsb (String.eqb x) seen = true); [|congruence].
  apply existsb_exists. exists x. split.
  - by apply list_elem_of_In.
  - apply String.eqb_refl.
Qed.

Lemma fold_set_add_In (xs seen : list string) (y : string) :
  In y (fold_left JS.set_add xs seen) <-> In y seen \/ In y xs.
Proof.
  revert seen. induction xs as [|x xs IH]; intros seen; cbn.
  - tauto.
  - rewrite IH, set_add_In. intuition congruence.
Qed.

Lemma fold_set_add_NoDup (xs seen : list string) :
  NoDup seen -> NoDup (fold_left JS.set_add xs seen).
Proof.
  revert seen. induction xs as [|x xs IH]; intros seen Hseen; cbn.
  - assumption.
  - apply IH. by apply set_add_NoDup.
Qed.

Lemma new_Set_In (xs : list string) (y : string) :
  In y (JS.new_Set xs) <-> In y xs.
Proof. unfold JS.new_Set. rewrite fold_set_add_In. cbn. tauto. Qed.

Lemma new_Set_NoDup (xs : list string) : NoDup (JS.new_Set xs).
Proof. apply fold_set_add_NoDup, NoDup_nil_2. Qed.

Lemma sort_In (xs : list string) (y : string) : In y (JS.sort xs) <-> In y xs.
Proof.
  unfold JS.sort. rewrite <- !list_elem_of_In.
  by rewrite (merge_sort_Permutation String.le xs).
Qed.

Lemma sort_NoDup (xs : list string) : NoDup xs -> NoDup (JS.sort xs).
Proof.
  unfold JS.sort. by rewrite (merge_sort_Permutation String.le xs).
Qed.

(** A sorted list without repetition ascends strictly. *)
Lemma StronglySorted_strict (l : list string) :
  StronglySorted String.le l -> NoDup l ->
  StronglySorted Spec.strictly_before l.
Proof.
  induction 1 as [|x l Hl IH Hx]; intros Hnodup; [constructor|].
  apply NoDup_cons in Hnodup as [Hxl Hnodup].
  constructor; [by apply IH|].
  apply Forall_forall. intros y Hy. split.
  - rewrite Forall_forall in Hx. by apply Hx.
  - intros ->. by apply Hxl.
Qed.

Lemma providers_In (courses : list Course.t) (p : string) :
  In p (providers courses)
  <-> exists c, In c courses /\ Course.provider c = p.
Proof.
  unfold providers. rewrite sort_In, new_Set_In, in_map_iff.
  split; intros (c & ? & ?); exists c; tauto.
Qed.

Lemma providers_NoDup (courses : list Course.t) : NoDup (providers courses).
Proof. apply sort_NoDup, new_Set_NoDup. Qed.

(** C8. The provider list ascends strictly (so it is sorted and free of
    duplicates), and a name is on it exactly when it is the provider of some
    course; it is the only sorted, duplicate-free list with these members.
    For courses of providers Bolt, Acme, Bolt it is Acme, Bolt. *)
Theorem C8_providers_sorted_distinct :
  forall courses,
    StronglySorted Spec.strictly_before (providers courses)
    /\ NoDup (providers courses)
    /\ (forall p, In p (providers courses)
                  <-> exists c, In c courses /\ Course.provider c = p)
    /\ (forall l,
          Sorted String.le l -> NoDup l ->
          (forall p, In p l <-> exists c, In c courses /\ Course.provider c = p) ->
          l = providers courses)
    /\ providers [Sample.biology; Sample.algebra; Sample.biology]
       = ["Acme"; "Bolt"].
Proof.
  intros courses. split; [|split; [|split; [|split]]].
  - apply StronglySorted_strict; [|apply providers_NoDup].
    apply (StronglySorted_merge_sort String.le).
  - apply providers_NoDup.
  - apply providers_In.
  - intros l Hsorted Hnodup Hmem.
    apply (Sorted_unique String.le); [assumption | |].
    + apply (Sorted_merge_sort String.le).
    + apply NoDup_Permutation; [assumption | apply providers_NoDup |].
      intros p. rewrite !list_elem_of_In, Hmem. symmetry. apply providers_In.
  - reflexivity.
Qed.

(** The list Acme, Bolt is sorted, duplicate-free and holds the providers
    of the two sample courses: it is their provider list. *)
Lemma C8_providers_witness :
  ["Acme"; "Bolt"] = providers Sample.two_courses.
Proof.
  apply (proj1 (proj2 (proj2 (proj2
           (C8_providers_sorted_distinct Sample.two_courses))))).
  - repeat constructor.
  - apply (bool_decide_unpack _). by vm_compute.
  - intros p. split.
    + intros [<- | [<- | []]].
      * exists Sample.algebra. cbn. tauto.
      * exists Sample.biology. cbn. tauto.
    + intros (c & [<- | [<- | []]] & <-); cbn; tauto.
Defined.

(** ** Rows against the overall statistics *)

Lemma courses_with_id_cons (k : string) (c : Course.t) (courses : list Course.t) :
  Spec.courses_with_id k (c :: courses)
  = (if decide (Course.id c = k) then 1 else 0)
    + Spec.courses_with_id k courses.
Proof.
  unfold Spec.courses_with_id. rewrite filter_cons.
  by case_decide.
Qed.

Lemma courses_with_id_none (k : string) (courses : list Course.t) :
  ~ In k (map Course.id courses) -> Spec.courses_with_id k courses = 0.
Proof.
  induction courses as [|c courses IH]; cbn [map In]; intros Hk;
    [reflexivity|].
  rewrite courses_with_id_cons, decide_False by tauto.
  apply IH. tauto.
Qed.

(** With pairwise distinct ids at most one course has a given id. *)
Lemma courses_with_id_le (k : string) (courses : list Course.t) :
  NoDup (map Course.id courses) -> Spec.courses_with_id k courses <= 1.
Proof.
  induction courses as [|c courses IH]; cbn [map]; intros Hids;
    [cbv; lia|].
  apply NoDup_cons in Hids as [Hc Hids]. rewrite list_elem_of_In in Hc.
  rewrite courses_with_id_cons. case_decide as Hk; [|by apply IH].
  subst k. by rewrite (courses_with_id_none _ _ Hc).
Qed.

Lemma courses_with_id_one (k : string) (courses : list Course.t) :
  NoDup (map Course.id courses) -> In k (map Course.id courses) ->
  Spec.courses_with_id k courses = 1.
Proof.
  induction courses as [|c courses IH]; cbn [map In]; intros Hids Hk;
    [tauto|].
  apply NoDup_cons in Hids as [Hc Hids]. rewrite list_elem_of_In in Hc.
  rewrite courses_with_id_cons. case_decide as Hck.
  - subst k. by rewrite (courses_with_id_none _ _ Hc).
  - rewrite IH; [reflexivity | assumption | tauto].
Qed.

Lemma courseStats_cons c courses enrolments transactions :
  courseStats (c :: courses) enrolments transactions
  = courseStat enrolments transactions c
    :: courseStats courses enrolments transactions.
Proof. reflexivity. Qed.

Lemma sum_totalEnrolments_nil courses transactions :
  sum_list (map CourseStats.totalEnrolments (courseStats courses [] transactions))
  = 0.
Proof. induction courses as [|c courses IH]; cbn; [reflexivity | exact IH]. Qed.

Lemma sum_totalEnrolments_cons courses e enrolments transactions :
  sum_list (map CourseStats.totalEnrolments
                (courseStats courses (e :: enrolments) transactions))
  = Spec.courses_with_id (Enrolment.courseId e) courses
    + sum_list (map CourseStats.totalEnrolments
                    (courseStats courses enrolments transactions)).
Proof.
  induction courses as [|c courses IH]; [reflexivity|].
  rewrite !courseStats_cons. cbn [map sum_list sum_list_with].
  rewrite IH, courses_with_id_cons.
  unfold courseStat; cbn [CourseStats.totalEnrolments List.filter].
  destruct (String.eqb_spec (Enrolment.courseId e) (Course.id c)) as [He|He].
  - rewrite decide_True by done. cbn [length]. unfold id. lia.
  - rewrite decide_False by done. unfold id. lia.
Qed.

Section RowsAgainstOverall.
Variable courses : list Course.t.
Hypothesis distinct_ids : NoDup (map Course.id courses).

Lemma rows_totalEnrolments_le enrolments transactions :
  sum_list (map CourseStats.totalEnrolments
                (courseStats courses enrolments transactions))
  <= length enrolments.
Proof.
  induction enrolments as [|e enrolments IH].
  - by rewrite sum_totalEnrolments_nil.
  - rewrite sum_totalEnrolments_cons. cbn [length].
    pose proof (courses_with_id_le (Enrolment.courseId e) courses distinct_ids).
    lia.
Qed.

Lemma rows_totalEnrolments_eq enrolments transactions :
  Spec.enrolments_covered courses enrolments ->
  sum_list (map CourseStats.totalEnrolments
                (courseStats courses enrolments transactions))
  = length enrolments.
Proof.
  induction 1 as [|e enrolments He _ IH].
  - by rewrite sum_totalEnrolments_nil.
  - rewrite sum_totalEnrolments_cons, IH. cbn [length].
    by rewrite (courses_with_id_one _ _ distinct_ids He).
Qed.

End RowsAgainstOverall.

(** The enrolment counts of the rows do not depend on the amounts. *)
Lemma double_rows_totalEnrolments courses enrolments transactions transactions' :
  map Double.CourseStats.totalEnrolments
      (Double.courseStats courses enrolments transactions)
  = map CourseStats.totalEnrolments
        (courseStats courses enrolments transactions').
Proof.
  unfold Double.courseStats, courseStats. rewrite !map_map.
  by apply map_ext.
Qed.

Lemma double_rowCharges_cons t transactions course :
  Double.rowCharges (t :: transactions) course
  = if decide (Double.qualifies course t)
    then t :: Double.rowCharges transactions course
    else Double.rowCharges transactions course.
Proof. by rewrite !double_rowCharges_qualifies, filter_cons. Qed.

Lemma double_overallCharges_counts transactions :
  Double.overallCharges transactions
  = filter Double.counts_overall transactions.
Proof.
  unfold Double.overallCharges. apply filter_bool_prop.
  intros t. unfold Double.counts_overall.
  rewrite !andb_true_iff, !String.eqb_eq.
  destruct (Double.Transaction.courseId t) as [[|c s]|]; cbn;
    intuition congruence.
Qed.

Lemma double_allRowCharges_nil courses : Double.allRowCharges courses [] = [].
Proof. induction courses as [|c courses IH]; [reflexivity | exact IH]. Qed.

(** A transaction that qualifies for no course is in no row. *)
Lemma double_allRowCharges_miss courses t transactions :
  Forall (fun c => ~ Double.qualifies c t) courses ->
  Double.allRowCharges courses (t :: transactions)
  = Double.allRowCharges courses transactions.
Proof.
  induction 1 as [|c courses Hc _ IH]; [reflexivity|].
  unfold Double.allRowCharges in *. cbn [flat_map].
  by rewrite IH, double_rowCharges_cons, decide_False.
Qed.

(** With pairwise distinct ids, a transaction that qualifies for some
    course is in the rows once. *)
Lemma double_allRowCharges_hit courses t transactions :
  NoDup (map Course.id courses) ->
  Exists (fun c => Double.qualifies c t) courses ->
  Permutation (Double.allRowCharges courses (t :: transactions))
              (t :: Double.allRowCharges courses transactions).
Proof.
  induction courses as [|c courses IH]; cbn [map]; intros Hids Hhit.
  - by apply Exists_nil in Hhit.
  - apply NoDup_cons in Hids as [Hc Hids]. rewrite list_elem_of_In in Hc.
    change (Permutation
              (Double.rowCharges (t :: transactions) c
                 ++ Double.allRowCharges courses (t :: transactions))
              (t :: Double.rowCharges transactions c
                 ++ Double.allRowCharges courses transactions)).
    rewrite double_rowCharges_cons.
    destruct (decide (Double.qualifies c t)) as [Hq|Hq].
    + rewrite double_allRowCharges_miss; [reflexivity|].
      apply Forall_forall. intros c' Hc' Hq'. apply Hc.
      destruct Hq as [Hq _], Hq' as [Hq' _].
      assert (Course.id c = Course.id c') as -> by congruence.
      by apply in_map, list_elem_of_In.
    + apply Exists_cons in Hhit as [Hhit|Hhit]; [tauto|].
      rewrite (IH Hids Hhit). symmetry. apply Permutation_middle.
Qed.

Section ChargesOfRowsAgainstOverall.
Variable courses : list Course.t.
Hypothesis distinct_ids : NoDup (map Course.id courses).
Hypothesis ids_not_blank :
  Forall (fun c => Course.id c <> EmptyString) courses.

Lemma double_row_charge_counts_overall t :
  Exists (fun c => Double.qualifies c t) courses -> Double.counts_overall t.
Proof.
  intros (c & Hc & Hid & Htype & Hstatus)%Exists_exists.
  unfold Double.counts_overall. rewrite Hid. repeat split; try assumption.
  exact (proj1 (Forall_forall _ _) ids_not_blank c Hc).
Qed.

(** Every charge summed by a row is summed by the overall revenue, and none
    is summed by two rows. *)
Lemma double_row_charges_within_overall transactions :
  submseteq (Double.allRowCharges courses transactions)
            (Double.overallCharges transactions).
Proof.
  rewrite double_overallCharges_counts.
  induction transactions as [|t transactions IH].
  - by rewrite double_allRowCharges_nil.
  - rewrite filter_cons.
    destruct (decide (Exists (fun c => Double.qualifies c t) courses))
      as [Hhit|Hmiss].
    + rewrite (double_allRowCharges_hit _ _ _ distinct_ids Hhit).
      rewrite decide_True by by apply double_row_charge_counts_overall.
      by apply submseteq_skip.
    + rewrite double_allRowCharges_miss
        by by apply Forall_Exists_neg.
      case_decide; [by apply submseteq_cons | exact IH].
Qed.

(** When every completed charge with a [courseId] belongs to a course, the
    rows sum exactly the charges of the overall revenue. *)
Lemma double_row_charges_are_overall transactions :
  Forall (fun t => Double.Transaction.type t = "charge" ->
                   Double.Transaction.status t = "completed" ->
                   forall s, Double.Transaction.courseId t = Some s ->
                             In s (map Course.id courses))
         transactions ->
  Permutation (Double.allRowCharges courses transactions)
              (Double.overallCharges transactions).
Proof.
  rewrite double_overallCharges_counts.
  induction 1 as [|t transactions Ht _ IH].
  - by rewrite double_allRowCharges_nil.
  - rewrite filter_cons.
    destruct (decide (Exists (fun c => Double.qualifies c t) courses))
      as [Hhit|Hmiss].
    + rewrite (double_allRowCharges_hit _ _ _ distinct_ids Hhit).
      rewrite decide_True by by apply double_row_charge_counts_overall.
      by apply perm_skip.
    + rewrite double_allRowCharges_miss
        by by apply Forall_Exists_neg.
      rewrite decide_False; [exact IH|].
      intros (Htype & Hstatus & Hid). apply Hmiss.
      destruct (Double.Transaction.courseId t) as [s|] eqn:Hs; [|tauto].
      specialize (Ht Htype Hstatus s eq_refl).
      apply in_map_iff in Ht as (c & Hc & Hin).
      apply Exists_exists. exists c. split; [by apply list_elem_of_In|].
      unfold Double.qualifies. rewrite Hs, Hc. tauto.
Qed.
End ChargesOfRowsAgainstOverall.

(** C10, as worded, fails in two ways.  A single course whose id is the
    empty string, with a completed charge of 50 on it, has a row revenue of
    50 against an overall revenue of 0.  And with the distinct, non-empty
    ids "a" and "b", a charge of 2^53 on "b" followed by two charges of 1
    on "a" gives rows of 2 and 2^53, which add up to 2^53 + 2, against an
    overall revenue of 2^53, the additions of 1 to 2^53 being rounded
    away. *)
Lemma C10_rows_exceed_overall :
  (NoDup (map Course.id [Sample.blank_course])
   /\ Double.footerRevenue
        (Double.courseStats [Sample.blank_course] []
                            [Sample.blank_charge_double]) = 50%float
   /\ Double.OverallStats.totalRevenue
        (Double.overallStats [Sample.blank_course] []
                             [Sample.blank_charge_double]) = 0%float
   /\ PrimFloat.leb
        (Double.footerRevenue
           (Double.courseStats [Sample.blank_course] []
                               [Sample.blank_charge_double]))
        (Double.OverallStats.totalRevenue
           (Double.overallStats [Sample.blank_course] []
                                [Sample.blank_charge_double])) = false)
  /\ (NoDup (map Course.id Sample.two_courses)
      /\ Forall (fun c => Course.id c <> EmptyString) Sample.two_courses
      /\ map Double.CourseStats.totalRevenue
             (Double.courseStats Sample.two_courses [] Sample.large_then_small)
         = [2%float; 9007199254740992%float]
      /\ Double.footerRevenue
           (Double.courseStats Sample.two_courses [] Sample.large_then_small)
         = 9007199254740994%float
      /\ Double.OverallStats.totalRevenue
           (Double.overallStats Sample.two_courses [] Sample.large_then_small)
         = 9007199254740992%float
      /\ PrimFloat.leb
           (Double.footerRevenue
              (Double.courseStats Sample.two_courses []
                                  Sample.large_then_small))
           (Double.OverallStats.totalRevenue
              (Double.overallStats Sample.two_courses []
                                   Sample.large_then_small)) = false).
Proof.
  split.
  - split; [apply (bool_decide_unpack _); by vm_compute|].
    by repeat split.
  - split; [apply (bool_decide_unpack _); by vm_compute|].
    split; [repeat constructor; discriminate|].
    by repeat split.
Qed.

(** C10, amended.  When the course ids are pairwise distinct, the
    [totalEnrolments] of all rows add up to at most the overall
    [totalEnrolments], with equality when every enrolment's [courseId] is
    the id of some course.  Each row's [totalRevenue] is the sum of the
    absolute amounts of its own charges and the overall [totalRevenue] the
    sum of the absolute amounts of the overall charges; when in addition no
    course id is the empty string, the charges of the rows, taken together,
    are part of the overall charges, none being summed by two rows, and they
    are all of them when the [courseId] of every completed charge that has
    one is the id of some course.  Nothing is said of the order between the
    sum of the rows' revenues and the overall revenue. *)
Theorem C10_rows_add_up_to_at_most_overall :
  forall courses enrolments transactions,
    NoDup (map Course.id courses) ->
    let stats := Double.courseStats courses enrolments transactions in
    let overall := Double.overallStats courses enrolments transactions in
    sum_list (map Double.CourseStats.totalEnrolments stats)
      <= Double.OverallStats.totalEnrolments overall
    /\ (Forall (fun e => exists c, In c courses
                                   /\ Course.id c = Enrolment.courseId e)
               enrolments ->
        sum_list (map Double.CourseStats.totalEnrolments stats)
        = Double.OverallStats.totalEnrolments overall)
    /\ map Double.CourseStats.totalRevenue stats
       = map (fun c => Double.sumAbs (Double.rowCharges transactions c))
             courses
    /\ Double.OverallStats.totalRevenue overall
       = Double.sumAbs (Double.overallCharges transactions)
    /\ (Forall (fun c => Course.id c <> EmptyString) courses ->
        submseteq (flat_map (Double.rowCharges transactions) courses)
                  (Double.overallCharges transactions)
        /\ (Forall (fun t => Double.Transaction.type t = "charge" ->
                             Double.Transaction.status t = "completed" ->
                             forall s, Double.Transaction.courseId t = Some s ->
                                       exists c, In c courses
                                                 /\ Course.id c = s)
                   transactions ->
            Permutation (flat_map (Double.rowCharges transactions) courses)
                        (Double.overallCharges transactions))).
Proof.
  intros courses enrolments transactions Hdistinct stats overall.
  subst stats overall.
  cbn [Double.overallStats Double.OverallStats.totalEnrolments
       Double.OverallStats.totalRevenue].
  rewrite (double_rows_totalEnrolments _ _ _ []).
  split; [|split; [|split; [|split]]].
  - by apply rows_totalEnrolments_le.
  - intros Hcovered. apply rows_totalEnrolments_eq; [assumption|].
    eapply Forall_impl; [exact Hcovered|].
    intros e (c & Hc & <-). by apply in_map.
  - unfold Double.courseStats. rewrite map_map. by apply map_ext.
  - reflexivity.
  - intros Hblank. split.
    + by apply double_row_charges_within_overall.
    + intros Hcovered. apply double_row_charges_are_overall; [assumption..|].
      eapply Forall_impl; [exact Hcovered|].
      intros t Ht Htype Hstatus s Hs.
      destruct (Ht Htype Hstatus s Hs) as (c & Hc & <-). by apply in_map.
Qed.

(** In the summary scenario the ids "a" and "b" are distinct and not empty,
    and every enrolment and charge belongs to a course: the enrolments of
    the rows add up to the overall enrolments, and the rows sum exactly the
    overall charges. *)
Lemma C10_rows_witness :
  let stats := Double.courseStats Sample.two_courses Sample.two_enrolments
                                  Sample.one_charge_double in
  let overall := Double.overallStats Sample.two_courses Sample.two_enrolments
                                     Sample.one_charge_double in
  sum_list (map Double.CourseStats.totalEnrolments stats)
    <= Double.OverallStats.totalEnrolments overall
  /\ sum_list (map Double.CourseStats.totalEnrolments stats)
     = Double.OverallStats.totalEnrolments overall
  /\ submseteq
       (flat_map (Double.rowCharges Sample.one_charge_double) Sample.two_courses)
       (Double.overallCharges Sample.one_charge_double)
  /\ Permutation
       (flat_map (Double.rowCharges Sample.one_charge_double) Sample.two_courses)
       (Double.overallCharges Sample.one_charge_double).
Proof.
  assert (Hdistinct : NoDup (map Course.id Sample.two_courses)).
  { apply (bool_decide_unpack _). by vm_compute. }
  assert (Hblank : Forall (fun c => Course.id c <> EmptyString)
                          Sample.two_courses).
  { repeat constructor; discriminate. }
  destruct (C10_rows_add_up_to_at_most_overall
              Sample.two_courses Sample.two_enrolments
              Sample.one_charge_double Hdistinct)
    as (Hle & Heq & _ & _ & Hcharges).
  destruct (Hcharges Hblank) as [Hsub Hperm].
  split; [exact Hle | split; [apply Heq | split; [exact Hsub | apply Hperm]]].
  - repeat constructor; exists Sample.algebra; cbn; tauto.
  - repeat constructor. intros _ _ s [= <-].
    exists Sample.algebra; cbn; tauto.
Defined.

(** ** Further properties of the statistics rows *)

Lemma courseStat_totalEnrolments course enrolments transactions :
  CourseStats.totalEnrolments (courseStat enrolments transactions course)
  = length (filter (fun e => Enrolment.courseId e = Course.id course)
                   enrolments).
Proof.
  unfold courseStat; cbn [CourseStats.totalEnrolments]. f_equal.
  apply filter_bool_prop. intros e. apply String.eqb_eq.
Qed.

Lemma courseStat_activeEnrolments course enrolments transactions :
  CourseStats.activeEnrolments (courseStat enrolments transactions course)
  = length (filter (fun e => Enrolment.courseId e = Course.id course
                             /\ Enrolment.isActive e = true)
                   enrolments).
Proof.
  unfold courseStat; cbn [CourseStats.activeEnrolments]. f_equal.
  rewrite filter_bool_and. apply filter_bool_prop.
  intros e. by rewrite andb_true_iff, String.eqb_eq.
Qed.

(** For each course, [totalEnrolments] is the number of enrolments whose
    [courseId] is the course's id and [activeEnrolments] the number of those
    that are active; an enrolment added anywhere in the collection raises
    each count by one exactly when it is counted by it. *)
Theorem enrolment_counts_of_a_course :
  forall course transactions,
    (forall enrolments,
        CourseStats.totalEnrolments (courseStat enrolments transactions course)
        = length (filter (fun e => Enrolment.courseId e = Course.id course)
                         enrolments)
        /\ CourseStats.activeEnrolments
             (courseStat enrolments transactions course)
           = length (filter (fun e => Enrolment.courseId e = Course.id course
                                      /\ Enrolment.isActive e = true)
                            enrolments))
    /\ (forall es1 e es2,
          CourseStats.totalEnrolments
            (courseStat (es1 ++ e :: es2) transactions course)
          = CourseStats.totalEnrolments
              (courseStat (es1 ++ es2) transactions course)
            + (if decide (Enrolment.courseId e = Course.id course)
               then 1 else 0)
          /\ CourseStats.activeEnrolments
               (courseStat (es1 ++ e :: es2) transactions course)
             = CourseStats.activeEnrolments
                 (courseStat (es1 ++ es2) transactions course)
               + (if decide (Enrolment.courseId e = Course.id course
                             /\ Enrolment.isActive e = true)
                  then 1 else 0)).
Proof.
  intros course transactions. split.
  - intros enrolments. split.
    + apply courseStat_totalEnrolments.
    + apply courseStat_activeEnrolments.
  - intros es1 e es2.
    rewrite !courseStat_totalEnrolments, !courseStat_activeEnrolments.
    rewrite !filter_app, !filter_cons, !length_app.
    split; case_decide; cbn [length]; lia.
Qed.

(** A course that no enrolment and no transaction refers to has a row of
    zeros: no enrolments, no active enrolments, no revenue. *)
Theorem unreferenced_course_has_zero_row :
  forall course enrolments transactions,
    Forall (fun e => Enrolment.courseId e <> Course.id course) enrolments ->
    Forall (fun t => Transaction.courseId t <> Some (Course.id course))
           transactions ->
    let row := courseStat enrolments transactions course in
    CourseStats.totalEnrolments row = 0
    /\ CourseStats.activeEnrolments row = 0
    /\ CourseStats.totalRevenue row = 0%Z.
Proof.
  intros course enrolments transactions Hes Hts row. subst row.
  rewrite courseStat_totalEnrolments, courseStat_activeEnrolments,
    courseStat_totalRevenue.
  repeat split.
  - induction Hes as [|e es He _ IH]; [reflexivity|].
    by rewrite filter_cons_False.
  - induction Hes as [|e es He _ IH]; [reflexivity|].
    rewrite filter_cons_False; [exact IH | tauto].
  - unfold Spec.revenue.
    induction Hts as [|t ts Ht _ IH]; [reflexivity|].
    rewrite filter_cons_False; [exact IH|]. unfold Spec.qualifies. tauto.
Qed.

Lemma unreferenced_course_witness :
  let row := courseStat Sample.two_enrolments Sample.one_charge Sample.biology in
  CourseStats.totalEnrolments row = 0
  /\ CourseStats.activeEnrolments row = 0
  /\ CourseStats.totalRevenue row = 0%Z.
Proof.
  apply (unreferenced_course_has_zero_row
           Sample.biology Sample.two_enrolments Sample.one_charge).
  - repeat constructor; discriminate.
  - repeat constructor; discriminate.
Defined.

(** Two courses with the same id get the same three statistics, whatever
    their other fields: records are matched to a course by its id alone. *)
Theorem same_id_same_statistics :
  forall c1 c2 enrolments transactions,
    Course.id c1 = Course.id c2 ->
    let row1 := courseStat enrolments transactions c1 in
    let row2 := courseStat enrolments transactions c2 in
    CourseStats.totalEnrolments row1 = CourseStats.totalEnrolments row2
    /\ CourseStats.activeEnrolments row1 = CourseStats.activeEnrolments row2
    /\ CourseStats.totalRevenue row1 = CourseStats.totalRevenue row2.
Proof.
  intros c1 c2 enrolments transactions Hid row1 row2. subst row1 row2.
  unfold courseStat; cbn. by rewrite Hid.
Qed.

Lemma same_id_witness :
  let twin := Course.mk "a" "A2" "Analysis" "Bolt" 60 false None None in
  let row1 := courseStat Sample.two_enrolments Sample.one_charge Sample.algebra in
  let row2 := courseStat Sample.two_enrolments Sample.one_charge twin in
  CourseStats.totalEnrolments row1 = CourseStats.totalEnrolments row2
  /\ CourseStats.activeEnrolments row1 = CourseStats.activeEnrolments row2
  /\ CourseStats.totalRevenue row1 = CourseStats.totalRevenue row2.
Proof.
  intros twin.
  apply (same_id_same_statistics
           Sample.algebra twin Sample.two_enrolments Sample.one_charge).
  reflexivity.
Defined.

(** ** Further properties of the overall statistics *)

(** The overall statistics never count more active courses than courses, nor
    more active enrolments than enrolments, and the revenue is never
    negative. *)
Theorem overallStats_bounds :
  forall courses enrolments transactions,
    let overall := overallStats courses enrolments transactions in
    OverallStats.activeCourses overall <= OverallStats.totalCourses overall
    /\ OverallStats.activeEnrolments overall
       <= OverallStats.totalEnrolments overall
    /\ (0 <= OverallStats.totalRevenue overall)%Z.
Proof.
  intros courses enrolments transactions overall. subst overall.
  split; [|split].
  - apply List.filter_length_le.
  - apply List.filter_length_le.
  - rewrite overallStats_overall. apply sumZ_abs_nonneg.
Qed.

(** A transaction that is not a completed charge with a present, non-empty
    [courseId] leaves the overall statistics unchanged wherever it is
    inserted in the collection: refunds and pending or unassigned charges
    never move the revenue.  A completed charge with such a [courseId],
    appended at the end of the collection, adds the absolute value of its
    amount to the revenue in one addition.  The four counters are the same
    for all transaction collections. *)
Theorem overall_revenue_of_added_transaction :
  forall courses enrolments,
    (forall ts1 t ts2,
        ~ Double.counts_overall t ->
        Double.overallStats courses enrolments (ts1 ++ t :: ts2)
        = Double.overallStats courses enrolments (ts1 ++ ts2))
    /\ (forall ts t,
          Double.counts_overall t ->
          Double.OverallStats.totalRevenue
            (Double.overallStats courses enrolments (ts ++ [t]))
          = (Double.OverallStats.totalRevenue
               (Double.overallStats courses enrolments ts)
             + abs (Double.Transaction.amount t))%float)
    /\ (forall ts ts',
          let before := Double.overallStats courses enrolments ts in
          let after := Double.overallStats courses enrolments ts' in
          Double.OverallStats.totalCourses after
          = Double.OverallStats.totalCourses before
          /\ Double.OverallStats.activeCourses after
             = Double.OverallStats.activeCourses before
          /\ Double.OverallStats.totalEnrolments after
             = Double.OverallStats.totalEnrolments before
          /\ Double.OverallStats.activeEnrolments after
             = Double.OverallStats.activeEnrolments before).
Proof.
  intros courses enrolments. split; [|split].
  - intros ts1 t ts2 Ht. unfold Double.overallStats.
    by rewrite !double_overallCharges_counts, !filter_app, filter_cons_False.
  - intros ts t Ht. unfold Double.overallStats.
    cbn [Double.OverallStats.totalRevenue].
    rewrite !double_overallCharges_counts, filter_app, filter_cons_True by done.
    unfold Double.sumAbs. by rewrite fold_left_app.
  - by repeat split.
Qed.

Lemma overall_revenue_witness :
  Double.overallStats Sample.two_courses Sample.two_enrolments
    (Sample.one_charge_double ++ Sample.refund_double
                              :: Sample.one_charge_double)
  = Double.overallStats Sample.two_courses Sample.two_enrolments
      (Sample.one_charge_double ++ Sample.one_charge_double)
  /\ Double.OverallStats.totalRevenue
       (Double.overallStats Sample.two_courses Sample.two_enrolments
          (Sample.large_then_small ++ Sample.one_charge_double))
     = (Double.OverallStats.totalRevenue
          (Double.overallStats Sample.two_courses Sample.two_enrolments
             Sample.large_then_small)
        + abs 50)%float.
Proof.
  destruct (overall_revenue_of_added_transaction
              Sample.two_courses Sample.two_enrolments) as (Hskip & Hlast & _).
  split.
  - apply Hskip. intros (Htype & _). discriminate Htype.
  - apply (Hlast Sample.large_then_small
             (Double.Transaction.mk "t1" (Some "a") "charge" "completed" 50)).
    repeat split; discriminate.
Defined.

(** ** Further properties of the filter *)

(** A [statusFilter] other than "all", "active" and "inactive" lets no row
    through, whatever the provider selection. *)
Theorem unknown_status_matches_nothing :
  forall stats statusFilter providerFilter,
    ~ Spec.known_status statusFilter ->
    filteredCourses stats statusFilter providerFilter = [].
Proof.
  intros stats statusFilter providerFilter Hunknown.
  unfold Spec.known_status in Hunknown. unfold filteredCourses.
  induction stats as [|c stats IH]; [reflexivity|].
  cbn [List.filter]. rewrite IH.
  destruct (String.eqb_spec statusFilter "all"); [tauto|].
  destruct (String.eqb_spec statusFilter "active"); [tauto|].
  destruct (String.eqb_spec statusFilter "inactive"); [tauto|].
  reflexivity.
Qed.

Lemma unknown_status_witness :
  filteredCourses
    (courseStats Sample.two_courses Sample.two_enrolments Sample.one_charge)
    "Active" "all" = [].
Proof.
  apply unknown_status_matches_nothing.
  intros [H | [H | H]]; discriminate H.
Defined.

Lemma filteredCourses_all_all stats : filteredCourses stats "all" "all" = stats.
Proof.
  unfold filteredCourses.
  induction stats as [|c stats IH]; [reflexivity|].
  cbn [List.filter]. rewrite IH. reflexivity.
Qed.

(** With both selections on "all" the filter returns every row, and with
    the status selection "all" it returns every row of the selected
    provider. *)
Theorem filter_all_keeps_every_row :
  forall stats,
    filteredCourses stats "all" "all" = stats
    /\ (forall p, p <> "all" ->
                  filteredCourses stats "all" p
                  = filter (fun c => CourseStats.provider c = p) stats).
Proof.
  intros stats. split; [apply filteredCourses_all_all|].
  intros p Hp. unfold filteredCourses. apply filter_bool_prop.
  intros c. cbn. destruct (String.eqb_spec p "all"); [tauto|].
  cbn. apply String.eqb_eq.
Qed.

Lemma filter_all_witness :
  filteredCourses
    (courseStats Sample.two_courses Sample.two_enrolments Sample.one_charge)
    "all" "Bolt"
  = filter (fun c => CourseStats.provider c = "Bolt")
      (courseStats Sample.two_courses Sample.two_enrolments Sample.one_charge).
Proof.
  apply (proj2 (filter_all_keeps_every_row
                  (courseStats Sample.two_courses Sample.two_enrolments
                               Sample.one_charge))).
  discriminate.
Defined.

(** Filtering twice with the same selection changes nothing, and two
    selections applied one after the other give the same rows in either
    order. *)
Theorem filter_idempotent_and_commutes :
  forall stats sf pf sf' pf',
    filteredCourses (filteredCourses stats sf pf) sf pf
    = filteredCourses stats sf pf
    /\ filteredCourses (filteredCourses stats sf pf) sf' pf'
       = filteredCourses (filteredCourses stats sf' pf') sf pf.
Proof.
  intros stats sf pf sf' pf'. unfold filteredCourses.
  rewrite !filter_bool_and. split; apply List.filter_ext; intros c.
  - apply andb_diag.
  - apply andb_comm.
Qed.

Lemma filter_split_length {A : Type} (f g h : A -> bool) (l : list A) :
  (forall x, h x = f x || g x) -> (forall x, f x && g x = false) ->
  length (List.filter f l) + length (List.filter g l)
  = length (List.filter h l).
Proof.
  intros Hh Hfg. induction l as [|x l IH]; [reflexivity|].
  cbn [List.filter]. rewrite Hh. specialize (Hfg x).
  destruct (f x), (g x); cbn [length orb] in *; try discriminate; lia.
Qed.

(** For every provider selection, the rows listed under "active" and the
    rows listed under "inactive" split the rows listed under "all": each row
    of "all" is in exactly one of the two, and the counts add up. *)
Theorem active_and_inactive_split_all :
  forall stats providerFilter,
    length (filteredCourses stats "active" providerFilter)
    + length (filteredCourses stats "inactive" providerFilter)
    = length (filteredCourses stats "all" providerFilter)
    /\ (forall c, In c (filteredCourses stats "all" providerFilter)
                  <-> In c (filteredCourses stats "active" providerFilter)
                      \/ In c (filteredCourses stats "inactive" providerFilter))
    /\ (forall c, ~ (In c (filteredCourses stats "active" providerFilter)
                     /\ In c (filteredCourses stats "inactive" providerFilter))).
Proof.
  intros stats providerFilter. unfold filteredCourses. split; [|split].
  - apply filter_split_length; intros c; cbn;
      destruct (CourseStats.isActive c),
        (String.eqb providerFilter "all"
         || String.eqb (CourseStats.provider c) providerFilter);
      reflexivity.
  - intros c. rewrite !filter_In. cbn.
    destruct (CourseStats.isActive c),
      (String.eqb providerFilter "all"
       || String.eqb (CourseStats.provider c) providerFilter);
      cbn; intuition congruence.
  - intros c. rewrite !filter_In. cbn.
    destruct (CourseStats.isActive c); cbn; intuition congruence.
Qed.

(** Every name on the provider list, chosen as provider selection with the
    status selection "all", lists at least one row; a selection other than
    "all" that is not on the provider list lists none, whatever the status
    selection. *)
Theorem offered_providers_match_some_row :
  forall courses enrolments transactions,
    let stats := courseStats courses enrolments transactions in
    (forall p, In p (providers courses) ->
               filteredCourses stats "all" p <> [])
    /\ (forall p statusFilter,
          p <> "all" -> ~ In p (providers courses) ->
          filteredCourses stats statusFilter p = []).
Proof.
  intros courses enrolments transactions stats. subst stats. split.
  - intros p (c & Hc & Hp)%providers_In Hempty.
    assert (Hrow : In (courseStat enrolments transactions c)
                      (filteredCourses
                         (courseStats courses enrolments transactions) "all" p)).
    { unfold filteredCourses, courseStats. apply filter_In. split.
      - by apply in_map.
      - cbn. rewrite Hp, String.eqb_refl. apply orb_true_r. }
    rewrite Hempty in Hrow. destruct Hrow.
  - intros p statusFilter Hall Hp.
    assert (Hnone : forall c, In c courses -> Course.provider c <> p).
    { intros c Hc Hcp. apply Hp, providers_In. by exists c. }
    unfold filteredCourses, courseStats.
    induction courses as [|c courses IH]; [reflexivity|].
    cbn [map List.filter]. rewrite IH.
    + cbn [courseStat CourseStats.provider].
      destruct (String.eqb_spec p "all"); [tauto|].
      destruct (String.eqb_spec (Course.provider c) p) as [Hcp|_].
      * exfalso. apply (Hnone c); [by left | exact Hcp].
      * by rewrite andb_false_r.
    + intros Hin. apply Hp. apply providers_In.
      apply providers_In in Hin as (c' & Hc' & Hp'). exists c'. split;
        [by right | exact Hp'].
    + intros c' Hc'. apply Hnone. by right.
Qed.

Lemma offered_providers_witness :
  filteredCourses
    (courseStats Sample.two_courses Sample.two_enrolments Sample.one_charge)
    "all" "Bolt" <> []
  /\ filteredCourses
       (courseStats Sample.two_courses Sample.two_enrolments Sample.one_charge)
       "active" "Zeta" = [].
Proof.
  destruct (offered_providers_match_some_row
              Sample.two_courses Sample.two_enrolments Sample.one_charge)
    as [Hsome Hnone].
  split.
  - apply Hsome. cbv. tauto.
  - apply Hnone; [discriminate|].
    cbv. intros [H | [H | []]]; discriminate H.
Defined.

(** ** Further properties of the summary footer *)

Lemma sum_list_filter_le {A : Type} (w : A -> nat) (f : A -> bool) (l : list A) :
  sum_list (map w (List.filter f l)) <= sum_list (map w l).
Proof.
  induction l as [|x l IH]; [reflexivity|].
  cbn [List.filter]. destruct (f x); cbn [map sum_list sum_list_with];
    unfold id in *; lia.
Qed.

Lemma sumZ_filter_le {A : Type} (w : A -> Z) (f : A -> bool) (l : list A) :
  Forall (fun x => (0 <= w x)%Z) l ->
  (Spec.sumZ (map w (List.filter f l)) <= Spec.sumZ (map w l))%Z.
Proof.
  induction 1 as [|x l Hx _ IH]; [reflexivity|].
  cbn [List.filter]. destruct (f x); cbn [map];
    change (Spec.sumZ (?y :: ?ys)) with (y + Spec.sumZ ys)%Z; lia.
Qed.

Lemma courseStats_revenue_nonneg courses enrolments transactions :
  Forall (fun cs => (0 <= CourseStats.totalRevenue cs)%Z)
         (courseStats courses enrolments transactions).
Proof.
  unfold courseStats. apply Forall_map, Forall_forall. intros course _.
  rewrite courseStat_totalRevenue. apply sumZ_abs_nonneg.
Qed.

(** Whatever the selection, the footer never shows more than the unfiltered
    table holds: the row count is at most the number of courses (the
    "Showing n of m courses" line has n <= m), and the two sums are at most
    the sums over all rows.  With both selections on "all" the footer is the
    summary of the whole table. *)
Theorem footer_bounded_by_unfiltered_table :
  forall courses enrolments transactions statusFilter providerFilter,
    let view := CoursesReportPage courses enrolments transactions
                                  statusFilter providerFilter in
    let whole := summaryFooter (View.courseStats view) in
    length (View.filteredCourses view) <= length courses
    /\ Summary.rows (View.summary view) <= Summary.rows whole
    /\ Summary.activeEnrolments (View.summary view)
       <= Summary.activeEnrolments whole
    /\ (Summary.totalRevenue (View.summary view)
        <= Summary.totalRevenue whole)%Z
    /\ View.summary
         (CoursesReportPage courses enrolments transactions "all" "all")
       = whole.
Proof.
  intros courses enrolments transactions statusFilter providerFilter view whole.
  subst view whole. cbn [CoursesReportPage View.filteredCourses View.summary
                          View.courseStats].
  rewrite !summaryFooter_summary, filteredCourses_all_all.
  unfold Spec.summary; cbn [Summary.rows Summary.activeEnrolments
                            Summary.totalRevenue].
  unfold filteredCourses.
  split; [|split; [|split; [|split]]].
  - etransitivity; [apply List.filter_length_le|].
    unfold courseStats. by rewrite length_map.
  - apply List.filter_length_le.
  - apply sum_list_filter_le.
  - apply sumZ_filter_le, courseStats_revenue_nonneg.
  - reflexivity.
Qed.

Lemma sum_activeEnrolments_nil courses transactions :
  sum_list (map CourseStats.activeEnrolments
                (courseStats courses [] transactions)) = 0.
Proof. induction courses as [|c courses IH]; cbn; [reflexivity | exact IH]. Qed.

Lemma sum_activeEnrolments_cons courses e enrolments transactions :
  sum_list (map CourseStats.activeEnrolments
                (courseStats courses (e :: enrolments) transactions))
  = (if Enrolment.isActive e
     then Spec.courses_with_id (Enrolment.courseId e) courses else 0)
    + sum_list (map CourseStats.activeEnrolments
                    (courseStats courses enrolments transactions)).
Proof.
  induction courses as [|c courses IH]; [by destruct (Enrolment.isActive e)|].
  rewrite !courseStats_cons. cbn [map sum_list sum_list_with].
  rewrite IH, courses_with_id_cons.
  unfold courseStat; cbn [CourseStats.activeEnrolments List.filter].
  destruct (String.eqb_spec (Enrolment.courseId e) (Course.id c)) as [He|He];
    cbn [List.filter]; destruct (Enrolment.isActive e); cbn [length];
    unfold id; try rewrite decide_True by done;
    try rewrite decide_False by done; lia.
Qed.

(** When the course ids are pairwise distinct, the active enrolments shown
    in the footer never exceed the overall active enrolments, whatever the
    selection; with both selections on "all" the two are equal as soon as
    every active enrolment belongs to a course of the collection. *)
Theorem footer_active_enrolments_against_overall :
  forall courses enrolments transactions statusFilter providerFilter,
    NoDup (map Course.id courses) ->
    let view := CoursesReportPage courses enrolments transactions
                                  statusFilter providerFilter in
    let unfiltered := CoursesReportPage courses enrolments transactions
                                        "all" "all" in
    Summary.activeEnrolments (View.summary view)
    <= OverallStats.activeEnrolments (View.overallStats view)
    /\ (Forall (fun e => Enrolment.isActive e = true ->
                         In (Enrolment.courseId e) (map Course.id courses))
               enrolments ->
        Summary.activeEnrolments (View.summary unfiltered)
        = OverallStats.activeEnrolments (View.overallStats unfiltered)).
Proof.
  intros courses enrolments transactions statusFilter providerFilter Hids
    view unfiltered.
  subst view unfiltered. cbn [CoursesReportPage View.summary View.overallStats].
  rewrite !summaryFooter_summary, filteredCourses_all_all.
  cbn [Spec.summary Summary.activeEnrolments overallStats
       OverallStats.activeEnrolments].
  split.
  - etransitivity; [apply sum_list_filter_le|].
    induction enrolments as [|e enrolments IH].
    + by rewrite sum_activeEnrolments_nil.
    + rewrite sum_activeEnrolments_cons. cbn [List.filter].
      pose proof (courses_with_id_le (Enrolment.courseId e) courses Hids).
      destruct (Enrolment.isActive e); cbn [length]; lia.
  - induction 1 as [|e enrolments He _ IH].
    + by rewrite sum_activeEnrolments_nil.
    + rewrite sum_activeEnrolments_cons, IH. cbn [List.filter].
      destruct (Enrolment.isActive e); [|reflexivity].
      by rewrite (courses_with_id_one _ _ Hids (He eq_refl)).
Qed.

Lemma footer_active_enrolments_witness :
  let view := CoursesReportPage Sample.two_courses Sample.two_enrolments
                                Sample.one_charge "inactive" "all" in
  let unfiltered := CoursesReportPage Sample.two_courses Sample.two_enrolments
                                      Sample.one_charge "all" "all" in
  Summary.activeEnrolments (View.summary view)
  <= OverallStats.activeEnrolments (View.overallStats view)
  /\ Summary.activeEnrolments (View.summary unfiltered)
     = OverallStats.activeEnrolments (View.overallStats unfiltered).
Proof.
  assert (Hids : NoDup (map Course.id Sample.two_courses)).
  { apply (bool_decide_unpack _). by vm_compute. }
  destruct (footer_active_enrolments_against_overall
              Sample.two_courses Sample.two_enrolments Sample.one_charge
              "inactive" "all" Hids) as [Hle Heq].
  split; [exact Hle | apply Heq].
  repeat constructor; cbn; tauto.
Defined.

(** ** Further properties of the provider list *)

(** The provider list is never longer than the course collection, and it
    does not depend on the order of the courses. *)
Theorem providers_short_and_order_independent :
  forall courses,
    length (providers courses) <= length courses
    /\ (forall courses', Permutation courses courses' ->
                         providers courses' = providers courses).
Proof.
  intros courses. split.
  - rewrite <- (length_map Course.provider courses).
    apply submseteq_length, NoDup_submseteq; [apply providers_NoDup|].
    intros p (c & Hc & <-)%list_elem_of_In%providers_In.
    by apply list_elem_of_In, in_map.
  - intros courses' Hperm.
    apply (Sorted_unique String.le);
      [apply (Sorted_merge_sort String.le)
      |apply (Sorted_merge_sort String.le)|].
    apply NoDup_Permutation; [apply providers_NoDup..|].
    intros p. rewrite !list_elem_of_In, !providers_In.
    split; intros (c & Hc & Hp); exists c; split; try exact Hp.
    + eapply Permutation_in; [symmetry; exact Hperm | exact Hc].
    + eapply Permutation_in; [exact Hperm | exact Hc].
Qed.

Lemma providers_order_witness :
  providers [Sample.biology; Sample.algebra] = providers Sample.two_courses.
Proof.
  apply (proj2 (providers_short_and_order_independent Sample.two_courses)).
  apply perm_swap.
Defined.


(** ** Further properties of the export *)

Lemma excel_data_line (c : CourseStats.t) :
  JS.join tab (map JS.toString (exportRow c)) = Spec.excel_line c.
Proof.
  unfold exportRow, Spec.excel_line.
  cbn [map JS.join JS.toString].
  by rewrite !pretty_Z_of_nat, !or_empty_date_text.
Qed.

Lemma handleExport_text format rows :
  fst (handleExport format rows)
  = fold_left (Spec.add_line (Spec.line_of format)) rows
              (Spec.header_of format).
Proof.
  destruct format; cbn [handleExport fst Spec.line_of Spec.header_of].
  - apply csvContent_csv_text.
  - unfold excelContent. rewrite map_map.
    rewrite (join_lines (fun c => JS.join tab (map JS.toString (exportRow c)))).
    change (JS.join tab headers) with Spec.excel_header_line.
    generalize Spec.excel_header_line.
    induction rows as [|c rows IH]; intros h; [reflexivity|].
    cbn [fold_left]. rewrite IH. unfold Spec.add_line.
    by rewrite excel_data_line.
Qed.

(** The "excel" export is the ten titles separated by tabs, followed on a
    new line each by one line per row: the ten cells of the row as they
    are, separated by tabs, without quotes. *)
Theorem excel_export_is_tab_separated :
  forall rows,
    fst (handleExport excel rows)
    = fold_left (Spec.add_line Spec.excel_line) rows Spec.excel_header_line.
Proof. intros rows. apply (handleExport_text excel). Qed.

(** In both formats the export of no rows is the header line alone, and
    exporting further rows appends their lines to the text exported for the
    rows before them: the text for a list of rows always begins with the
    text for any of its prefixes. *)
Theorem export_grows_by_appending_lines :
  forall format,
    fst (handleExport format []) = Spec.header_of format
    /\ (forall rows more,
          fst (handleExport format (rows ++ more))
          = fold_left (Spec.add_line (Spec.line_of format)) more
                      (fst (handleExport format rows)))
    /\ (forall rows c,
          fst (handleExport format (rows ++ [c]))
          = fst (handleExport format rows) +:+ newline
            +:+ Spec.line_of format c).
Proof.
  intros format. split; [|split].
  - apply handleExport_text.
  - intros rows more. by rewrite !handleExport_text, fold_left_app.
  - intros rows c. by rewrite !handleExport_text, fold_left_app.
Qed.

(** The comma-separated text does not tell a cell boundary from the same
    three characters inside a value: a row whose code is [a","b] and whose
    name is [c] is exported exactly like the row whose code is [a] and whose
    name is [b","c]. *)
Theorem csv_cell_boundary_is_ambiguous :
  forall (r : CourseStats.t) (a b c : string),
    csvContent
      [Spec.with_code_name (a +:+ Spec.cell_boundary +:+ b) c r]
    = csvContent
        [Spec.with_code_name a (b +:+ Spec.cell_boundary +:+ c) r].
Proof.
  intros r a b c. rewrite !csvContent_csv_text.
  unfold Spec.csv_text, Spec.add_line; cbn [fold_left]. do 2 f_equal.
  unfold Spec.data_line, Spec.with_code_name, Spec.quoted, Spec.cell_boundary.
  cbn [CourseStats.code CourseStats.name CourseStats.provider
       CourseStats.monthlyFee CourseStats.isActive CourseStats.startDate
       CourseStats.endDate CourseStats.totalEnrolments
       CourseStats.activeEnrolments CourseStats.totalRevenue].
  by rewrite !append_assoc.
Qed.

Lemma before_T_date (date time : string) :
  Spec.free_of "T" date -> before_T (date +:+ "T" +:+ time) = date.
Proof.
  unfold Spec.free_of. induction date as [|c date IH]; intros Hfree.
  - reflexivity.
  - change (before_T (String c (date +:+ "T" +:+ time)) = String c date).
    cbn [before_T]. cbn [list_ascii_of_string In] in Hfree.
    destruct (Ascii.eqb_spec c "T") as [->|_]; [tauto|].
    rewrite IH; [reflexivity | tauto].
Qed.

(** The download is named [courses_report_<date>] with the extension of the
    format, where the date is the part of the ISO timestamp before its
    [T]. *)
Theorem download_name_carries_the_date :
  forall format date time,
    Spec.free_of "T" date ->
    downloadName format (date +:+ "T" +:+ time)
    = "courses_report_" +:+ date +:+ Spec.extension format.
Proof.
  intros format date time Hfree. unfold downloadName.
  rewrite (before_T_date _ _ Hfree). by destruct format.
Qed.

Lemma download_name_witness :
  downloadName csv ("2026-11-02" +:+ "T" +:+ "09:30:00.000Z")
  = "courses_report_" +:+ "2026-11-02" +:+ Spec.extension csv.
Proof.
  apply download_name_carries_the_date.
  unfold Spec.free_of. cbn.
  intros H. repeat (destruct H as [H | H]; [discriminate H|]). exact H.
Defined.

(** ** Table body *)

Section TableBodyFacts.
Variable formatCurrency : Z -> string.
Variable formatDate : string -> string.

Lemma rowKeys_courseRows (l : list CourseStats.t) (extra : list TableRow) :
  rowKeys (map (courseRow formatCurrency formatDate) l ++ extra)
  = (map CourseStats.id l ++ rowKeys extra)%list.
Proof.
  induction l as [|c l IH]; [reflexivity|].
  cbn. by rewrite <- IH.
Qed.

Lemma rowKeys_tableBody (rows : list CourseStats.t) :
  rowKeys (tableBody formatCurrency formatDate rows)
  = map CourseStats.id rows.
Proof.
  unfold tableBody. rewrite rowKeys_courseRows.
  destruct (Nat.eqb (length rows) 0); cbn [rowKeys flat_map];
    by rewrite app_nil_r.
Qed.

(** The table body is never empty: it holds one row per listed course, in
    order, and the single "No courses found" row exactly when no course is
    listed. *)
Theorem table_body_rows :
  forall rows,
    let body := tableBody formatCurrency formatDate rows in
    body <> []
    /\ length body = Nat.max 1 (length rows)
    /\ rowKeys body = map CourseStats.id rows
    /\ ((exists n text, In (EmptyRow n text) body) <-> rows = []).
Proof.
  intros rows body. subst body.
  split; [|split; [|split; [apply rowKeys_tableBody|]]]; unfold tableBody;
    destruct rows as [|c rows]; cbn [length Nat.eqb map app];
    rewrite ?app_nil_r.
  - discriminate.
  - discriminate.
  - reflexivity.
  - rewrite length_map. lia.
  - split; [reflexivity|]. intros _. eexists _, _. by left.
  - split; [|discriminate].
    intros (n & text & [Hr | (r & Hr & _)%in_map_iff]); discriminate Hr.
Qed.
End TableBodyFacts.

Lemma filter_keeps_distinct_ids (f : CourseStats.t -> bool)
    (l : list CourseStats.t) :
  NoDup (map CourseStats.id l) -> NoDup (map CourseStats.id (List.filter f l)).
Proof.
  induction l as [|c l IH]; cbn [map List.filter]; intros Hl; [assumption|].
  apply NoDup_cons in Hl as [Hc Hl]. destruct (f c); [|by apply IH].
  cbn [map]. apply NoDup_cons. split; [|by apply IH].
  rewrite list_elem_of_In in *. intros (c' & Hid & Hc')%in_map_iff.
  apply Hc, in_map_iff. exists c'. split; [exact Hid|].
  by apply filter_In in Hc' as [Hc' _].
Qed.

(** When the course ids are pairwise distinct, the React keys of the rows of
    the table are pairwise distinct, whatever the selection. *)
Theorem table_row_keys_are_distinct :
  forall formatCurrency formatDate courses enrolments transactions
         statusFilter providerFilter,
    NoDup (map Course.id courses) ->
    NoDup (rowKeys
             (tableBody formatCurrency formatDate
                (View.filteredCourses
                   (CoursesReportPage courses enrolments transactions
                                      statusFilter providerFilter)))).
Proof.
  intros formatCurrency formatDate courses enrolments transactions
    statusFilter providerFilter Hids.
  rewrite rowKeys_tableBody.
  cbn [CoursesReportPage View.filteredCourses]. unfold filteredCourses.
  apply filter_keeps_distinct_ids.
  unfold courseStats. rewrite map_map. exact Hids.
Qed.

Lemma table_row_keys_witness :
  NoDup (rowKeys
           (tableBody (fun n => pretty n) (fun d => d)
              (View.filteredCourses
                 (CoursesReportPage Sample.two_courses Sample.two_enrolments
                                    Sample.one_charge "all" "Acme")))).
Proof.
  apply table_row_keys_are_distinct.
  apply (bool_decide_unpack _). by vm_compute.
Defined.


(** ** Provider select *)

(** The values offered by the provider select are pairwise distinct exactly
    when no course has a provider named "all"; and as soon as there is a
    course, every offered value, chosen with the status selection "all",
    lists at least one row. *)
Theorem provider_options_distinct_and_useful :
  forall courses enrolments transactions,
    (NoDup (providerOptions courses)
     <-> Forall (fun c => Course.provider c <> "all") courses)
    /\ (forall option,
          courses <> [] -> In option (providerOptions courses) ->
          filteredCourses (courseStats courses enrolments transactions)
                          "all" option <> []).
Proof.
  intros courses enrolments transactions. unfold providerOptions.
  rewrite map_id. split.
  - rewrite NoDup_cons, list_elem_of_In, providers_In, Forall_forall.
    split.
    + intros [Hall _] c Hc Hp. apply Hall. exists c.
      split; [by apply list_elem_of_In | exact Hp].
    + intros Hall. split; [|apply providers_NoDup].
      intros (c & Hc & Hp). apply (Hall c); [by apply list_elem_of_In | exact Hp].
  - intros option Hcourses [<- | Hin].
    + rewrite filteredCourses_all_all.
      destruct courses; [congruence | discriminate].
    + apply providers_In in Hin as (c & Hc & Hp). intros Hempty.
      assert (Hrow : In (courseStat enrolments transactions c)
                        (filteredCourses
                           (courseStats courses enrolments transactions)
                           "all" option)).
      { unfold filteredCourses, courseStats. apply filter_In. split.
        - by apply in_map.
        - cbn. rewrite Hp, String.eqb_refl. apply orb_true_r. }
      rewrite Hempty in Hrow. destruct Hrow.
Qed.

Lemma provider_options_witness :
  filteredCourses
    (courseStats Sample.two_courses Sample.two_enrolments Sample.one_charge)
    "all" "Acme" <> [].
Proof.
  apply (proj2 (provider_options_distinct_and_useful
                  Sample.two_courses Sample.two_enrolments Sample.one_charge)).
  - discriminate.
  - cbv. tauto.
Defined.

(** ** Order of the records *)

Lemma length_filter_Permutation {A : Type} (f : A -> bool) (l l' : list A) :
  Permutation l l' -> length (List.filter f l) = length (List.filter f l').
Proof. intros Hperm. rewrite !length_filter_bool_prop. by rewrite Hperm. Qed.

(** The statistics table and the overall statistics are the same for any
    reordering of the enrolments.  They are not for the transactions: the
    charges 2^53, 1, 1 give an overall revenue of 2^53, and the same
    charges in the order 1, 1, 2^53 give 2^53 + 2. *)
Theorem statistics_ignore_enrolment_order :
  (forall courses enrolments enrolments' transactions,
      Permutation enrolments enrolments' ->
      Double.courseStats courses enrolments transactions
      = Double.courseStats courses enrolments' transactions
      /\ Double.overallStats courses enrolments transactions
         = Double.overallStats courses enrolments' transactions)
  /\ (Permutation Sample.large_then_small Sample.small_then_large
      /\ Double.OverallStats.totalRevenue
           (Double.overallStats Sample.two_courses [] Sample.large_then_small)
         = 9007199254740992%float
      /\ Double.OverallStats.totalRevenue
           (Double.overallStats Sample.two_courses [] Sample.small_then_large)
         = 9007199254740994%float
      /\ PrimFloat.eqb 9007199254740992 9007199254740994 = false).
Proof.
  split.
  - intros courses enrolments enrolments' transactions Hperm. split.
    + unfold Double.courseStats. apply map_ext. intros c.
      unfold Double.courseStat. f_equal.
      * by apply length_filter_Permutation.
      * rewrite !filter_bool_and. by apply length_filter_Permutation.
    + unfold Double.overallStats. f_equal.
      * by apply Permutation_length.
      * by apply length_filter_Permutation.
  - split; [|by repeat split].
    unfold Sample.large_then_small, Sample.small_then_large.
    etransitivity; [apply Permutation_cons_append|]. reflexivity.
Qed.

Lemma statistics_order_witness :
  Double.courseStats Sample.two_courses
    [Enrolment.mk "e2" "a" true; Enrolment.mk "e1" "a" true]
    Sample.one_charge_double
  = Double.courseStats Sample.two_courses Sample.two_enrolments
                       Sample.one_charge_double
  /\ Double.overallStats Sample.two_courses
       [Enrolment.mk "e2" "a" true; Enrolment.mk "e1" "a" true]
       Sample.one_charge_double
     = Double.overallStats Sample.two_courses Sample.two_enrolments
                           Sample.one_charge_double.
Proof.
  apply (proj1 statistics_ignore_enrolment_order).
  apply perm_swap.
Defined.
